(** * ISS dashboard: the generative-answer client, the telemetry poller
      and the chatbot send handler

    A shallow embedding of the JavaScript of the repository:
    - [callGeminiAPI]   (part_001:9-51, env-credential variant; part_000:4-40
                         and part_001:865-901, literal-credential variant),
    - [fetchISSData]    (part_001:208-245),
    - [handleSend]      (part_001:915-934).

    Conventions of the embedding.
    - An [async] function is a state-passing function over a [world]: the
      world counts the network calls made so far and records, in order, the
      observable effects (requests, timer waits, console diagnostics, and
      the writes of the chatbot's state).  The network is a script: the
      n-th call of [fetch] is answered by [script n].
    - A promise that settles is a value of [settled]: fulfilled with a value
      or rejected with an exception.
    - Retry counts are natural numbers, the millisecond delay an unbounded
      integer (the doubling of a JS number is exact far beyond any realistic
      retry count).
    - A string holds the UTF-8 encoding of the (well-formed) JavaScript
      string.  The code takes strings as wholes: it compares them with the
      empty string, concatenates and trims them.
    - The telemetry poller is embedded twice.  [Tracker] idealises numbers
      as real numbers and takes the document of the endpoint as a record; it
      serves for what does not depend on the values: the requests, the
      frame of a failed poll, the length and the order of the trails.
      [Telemetry] has the numbers in binary64, the document as whatever
      JSON value arrives, and the trails in Float32; it serves for the
      values. *)

From Stdlib Require Import ZArith List String Ascii Bool Lia.
From Stdlib Require Import Floats DecimalString.
From Stdlib Require Import Reals.
Import ListNotations.
Open Scope string_scope.
Set Warnings "-register-all,-inexact-float".

(* ================================================================== *)
(** ** JavaScript values, as far as the client inspects them *)

Module JS.

(** A thrown value: every exception met here is an [Error] object, of which
    the code reads [name] (when logged) and [message]. *)
Record jsexn : Type := mkExn { exn_name : string; exn_message : string }.

(** [new Error(msg)] *)
Definition Error (msg : string) : jsexn := mkExn "Error" msg.

(** The exception of reading property [prop] of [null] or [undefined];
    [what] is "null" or "undefined". *)
Definition TypeError_read (what prop : string) : jsexn :=
  mkExn "TypeError"
        ("Cannot read properties of " ++ what ++ " (reading '" ++ prop ++ "')").

(** How a promise (or a block under [try]) ends. *)
Inductive settled (A : Type) : Type :=
| Fulfilled (a : A)
| Rejected (e : jsexn).
Arguments Fulfilled {A} a.
Arguments Rejected {A} e.

(** The values [JSON.parse] produces, and [undefined], which property
    access produces. Numbers are IEEE binary64. *)
Inductive jsval : Type :=
| JUndefined
| JNull
| JBool (b : bool)
| JNum (x : float)
| JStr (s : string)
| JArr (elems : list jsval)
| JObj (fields : list (string * jsval)).

(** ToBoolean. *)
Definition truthy (v : jsval) : bool :=
  match v with
  | JUndefined | JNull => false
  | JBool b => b
  | JNum x => negb (PrimFloat.eqb x 0%float || PrimFloat.is_nan x)
  | JStr s => negb (String.eqb s "")
  | JArr _ | JObj _ => true
  end.

Definition nullish (v : jsval) : bool :=
  match v with
  | JUndefined | JNull => true
  | _ => false
  end.

(** A property key: a name ([v.name]) or an index ([v[i]]). *)
Inductive key : Type :=
| Name (k : string)
| Idx (i : nat).

(** Decimal spelling of a number in a template literal or as a key. *)
Definition show_nat (n : nat) : string := NilZero.string_of_uint (Nat.to_uint n).
Definition show_Z (z : Z) : string := NilZero.string_of_int (Z.to_int z).

Definition show_key (k : key) : string :=
  match k with
  | Name s => s
  | Idx i => show_nat i
  end.

(** Own property [k] of an object; [undefined] when absent. *)
Fixpoint field (k : string) (fs : list (string * jsval)) : jsval :=
  match fs with
  | [] => JUndefined
  | (k', v) :: fs' => if String.eqb k k' then v else field k fs'
  end.

(** [v[k]] for a [v] that is neither [null] nor [undefined]. The names read
    by the client ([candidates], [content], [parts], [text]) and by the
    poller ([latitude], [longitude], [altitude]) are no built-in property of
    arrays, strings, numbers or booleans, so a named read of these is
    [undefined].  Of a string only the index 0 is read, and what is read is
    only asked for a name again: all that matters of [s[0]] is that it is a
    string when [s] is not empty, and [undefined] when it is. *)
Definition get (v : jsval) (k : key) : jsval :=
  match v, k with
  | JObj fs, _ => field (show_key k) fs
  | JArr l, Idx i => nth i l JUndefined
  | JStr s, Idx i =>
      match String.get i s with
      | Some c => JStr (String c "")
      | None => JUndefined
      end
  | _, _ => JUndefined
  end.

Definition show_nullish (v : jsval) : string :=
  match v with
  | JNull => "null"
  | _ => "undefined"
  end.

(** [v.k] / [v[k]]: throws on [null] and [undefined]. *)
Definition member (v : jsval) (k : key) : settled jsval :=
  if nullish v then Rejected (TypeError_read (show_nullish v) (show_key k))
  else Fulfilled (get v k).

(** [v.k1.k2...]: plain member accesses, left to right. *)
Fixpoint strict_chain (v : jsval) (p : list key) : settled jsval :=
  match p with
  | [] => Fulfilled v
  | k :: p' =>
      match member v k with
      | Fulfilled v' => strict_chain v' p'
      | Rejected e => Rejected e
      end
  end.

(** [v?.k1?.k2...]: every link optional. *)
Fixpoint opt_chain (v : jsval) (p : list key) : jsval :=
  match p with
  | [] => v
  | k :: p' => if nullish v then JUndefined else opt_chain (get v k) p'
  end.

(** The JSON reading of a path, for stating what a document contains:
    names select members of objects, indices elements of arrays. *)
Fixpoint lookup (k : string) (fs : list (string * jsval)) : option jsval :=
  match fs with
  | [] => None
  | (k', v) :: fs' => if String.eqb k k' then Some v else lookup k fs'
  end.

Fixpoint at_path (v : jsval) (p : list key) : option jsval :=
  match p with
  | [] => Some v
  | Name k :: p' =>
      match v with
      | JObj fs =>
          match lookup k fs with
          | Some v' => at_path v' p'
          | None => None
          end
      | _ => None
      end
  | Idx i :: p' =>
      match v with
      | JArr l =>
          match nth_error l i with
          | Some v' => at_path v' p'
          | None => None
          end
      | _ => None
      end
  end.

End JS.
Import JS.

(* ================================================================== *)
(** ** The network and the observable effects *)

Module Net.

(** What [fetch] settles to: a rejection (network or transport failure), or
    a response with its HTTP status and what [response.json()] will settle
    to (the parsed document of type [B], or the parser's rejection). *)
Record response (B : Type) : Type :=
  mkResponse { status : Z; json : settled B }.
Arguments mkResponse {B} status json.
Arguments status {B} r.
Arguments json {B} r.

(** [response.ok]: the status is in the range 200-299. *)
Definition ok {B : Type} (r : response B) : bool :=
  (200 <=? status r)%Z && (status r <=? 299)%Z.

Inductive fetched (B : Type) : Type :=
| NetworkFailure (e : jsexn)
| Response (r : response B).
Arguments NetworkFailure {B} e.
Arguments Response {B} r.

Inductive event : Type :=
| Fetch (url : string) (payload : option jsval)
| Sleep (ms : Z)
| ConsoleError (label : string)
| ConsoleErrorExn (label : string) (e : jsexn)
| ConsoleErrorVal (label : string) (v : jsval)
| SetState (name : string) (value : jsval).

Record world : Type := mkWorld { calls : nat; trace : list event }.

Definition M (A : Type) : Type := world -> A * world.

Definition ret {A : Type} (a : A) : M A := fun w => (a, w).

Definition bind {A B : Type} (m : M A) (k : A -> M B) : M B :=
  fun w => let (a, w') := m w in k a w'.

Definition emit (e : event) : M unit :=
  fun w => (tt, mkWorld (calls w) (trace w ++ [e])).

(** [await fetch(url, {method: 'POST', ..., body: JSON.stringify(payload)})]
    or, with no payload, [await fetch(url)]. *)
Definition fetch {B : Type} (script : nat -> fetched B)
    (url : string) (payload : option jsval) : M (fetched B) :=
  fun w => (script (calls w),
            mkWorld (S (calls w)) (trace w ++ [Fetch url payload])).

(** [await new Promise(res => setTimeout(res, ms))] *)
Definition sleep (ms : Z) : M unit := emit (Sleep ms).

(** The timer waits of a trace, in order. *)
Fixpoint sleeps (t : list event) : list Z :=
  match t with
  | [] => []
  | Sleep ms :: t' => ms :: sleeps t'
  | _ :: t' => sleeps t'
  end.

(** The requests of a trace, in order. *)
Fixpoint fetches (t : list event) : list (string * option jsval) :=
  match t with
  | [] => []
  | Fetch url p :: t' => (url, p) :: fetches t'
  | _ :: t' => fetches t'
  end.

End Net.
Import Net.

Declare Scope js_scope.
Notation "x <- c ;; k" := (bind c (fun x => k))
  (at level 61, c at next level, right associativity) : js_scope.
Notation "c ;;; k" := (bind c (fun _ => k))
  (at level 61, right associativity) : js_scope.
Open Scope js_scope.

(* ================================================================== *)
(** ** The generative-answer client *)

Module Gemini.

Definition endpoint : string :=
  "https://generativelanguage.googleapis.com/v1beta/models/gemini-2.5-flash-preview-05-20:generateContent?key=".

Definition fallback : string :=
  "I couldn't find a clear answer for that. Could you try rephrasing?".

Definition missing_key_msg : string :=
  "API key is missing. Please create a .env.local file and add your VITE_GEMINI_API_KEY.".

(** The defaults of the parameters [retries] and [delay]. *)
Definition default_retries : nat := 3.
Definition default_delay : Z := 1000.

(** [{ contents: [{ role: "user", parts: [{ text: prompt }] }] }] *)
Definition payload_of (prompt : string) : jsval :=
  let chatHistory :=
    JArr [JObj [("role", JStr "user");
                ("parts", JArr [JObj [("text", JStr prompt)]])]] in
  JObj [("contents", chatHistory)].

Definition text_path : list key :=
  [Name "candidates"; Idx 0; Name "content"; Name "parts"; Idx 0; Name "text"].

(** [result.candidates && result.candidates[0]?.content?.parts?.[0]?.text]:
    the value the [if] tests, or the exception of reading [result]. *)
Definition candidate_test (result : jsval) : settled jsval :=
  match member result (Name "candidates") with
  | Rejected e => Rejected e
  | Fulfilled c =>
      if truthy c then
        match member c (Idx 0) with
        | Rejected e => Rejected e
        | Fulfilled c0 =>
            Fulfilled (opt_chain c0
                         [Name "content"; Name "parts"; Idx 0; Name "text"])
        end
      else Fulfilled c
  end.

(** [`API responded with status: ${response.status}`] *)
Definition status_error (st : Z) : jsexn :=
  Error ("API responded with status: " ++ show_Z st).

Section Client.

Variable script : nat -> fetched jsval.

(** *** Variant with the credential taken from the environment
    (part_001:9-51).  [apiKey] is [import.meta.env.VITE_GEMINI_API_KEY]:
    a string, or [None] for [undefined]. *)
Section EnvKey.

Variable apiKey : option string.

(** [!apiKey] is false: the key is a non-empty string. *)
Definition key_configured : bool :=
  match apiKey with
  | Some k => negb (String.eqb k "")
  | None => false
  end.

Definition apiUrl : string :=
  endpoint ++ match apiKey with Some k => k | None => "undefined" end.

Fixpoint callGeminiAPI (prompt : string) (retries : nat) (delay : Z)
    {struct retries} : M (settled jsval) :=
  let payload := payload_of prompt in
  if negb key_configured then
    emit (ConsoleError missing_key_msg) ;;;
    ret (Fulfilled (JStr missing_key_msg))
  else
    (* catch (error) { ... } *)
    let handler (error : jsexn) : M (settled jsval) :=
      emit (ConsoleErrorExn "Error calling Gemini API:" error) ;;;
      match retries with
      | S retries' =>
          sleep delay ;;;
          callGeminiAPI prompt retries' (delay * 2)
      | O => ret (Rejected error)
      end in
    (* try { ... } *)
    response <- fetch script apiUrl (Some payload) ;;
    match response with
    | NetworkFailure e => handler e
    | Response r =>
        if negb (ok r) then
          match (status r =? 429)%Z, retries with
          | true, S retries' =>
              sleep delay ;;;
              callGeminiAPI prompt retries' (delay * 2)
          | _, _ => handler (status_error (status r))
          end
        else
          match json r with
          | Rejected e => handler e
          | Fulfilled result =>
              match candidate_test result with
              | Rejected e => handler e
              | Fulfilled t =>
                  if truthy t then
                    match strict_chain result text_path with
                    | Fulfilled v => ret (Fulfilled v)
                    | Rejected e => handler e
                    end
                  else
                    emit (ConsoleErrorVal "Unexpected API response structure:"
                                          result) ;;;
                    ret (Fulfilled (JStr fallback))
              end
          end
    end.

End EnvKey.

(** *** Variant with the credential written in the source (part_000:4-40,
    part_001:865-901): the same body without the missing-key test.
    [literalKey] stands for the string literal bound to [apiKey] there. *)
Section LiteralKey.

Variable literalKey : string.

Definition literalUrl : string := endpoint ++ literalKey.

Fixpoint callGeminiAPI_literal (prompt : string) (retries : nat) (delay : Z)
    {struct retries} : M (settled jsval) :=
  let payload := payload_of prompt in
  let handler (error : jsexn) : M (settled jsval) :=
    emit (ConsoleErrorExn "Error calling Gemini API:" error) ;;;
    match retries with
    | S retries' =>
        sleep delay ;;;
        callGeminiAPI_literal prompt retries' (delay * 2)
    | O => ret (Rejected error)
    end in
  response <- fetch script literalUrl (Some payload) ;;
  match response with
  | NetworkFailure e => handler e
  | Response r =>
      if negb (ok r) then
        match (status r =? 429)%Z, retries with
        | true, S retries' =>
            sleep delay ;;;
            callGeminiAPI_literal prompt retries' (delay * 2)
        | _, _ => handler (status_error (status r))
        end
      else
        match json r with
        | Rejected e => handler e
        | Fulfilled result =>
            match candidate_test result with
            | Rejected e => handler e
            | Fulfilled t =>
                if truthy t then
                  match strict_chain result text_path with
                  | Fulfilled v => ret (Fulfilled v)
                  | Rejected e => handler e
                  end
                else
                  emit (ConsoleErrorVal "Unexpected API response structure:"
                                        result) ;;;
                  ret (Fulfilled (JStr fallback))
            end
        end
  end.

End LiteralKey.

End Client.

(** The exception with which one attempt ends in the [catch] block, if it
    does: the rejection of [fetch], the error built for a status outside
    200-299, the rejection of [response.json()], or the exception of reading
    [candidates] of a [null] document. *)
Definition attempt_failure (o : fetched jsval) : option jsexn :=
  match o with
  | NetworkFailure e => Some e
  | Response r =>
      if ok r then
        match json r with
        | Rejected e => Some e
        | Fulfilled doc =>
            if nullish doc
            then Some (TypeError_read (show_nullish doc) "candidates")
            else None
        end
      else Some (status_error (status r))
  end.

(** The waits of [k] successive retries that start at [delay]. *)
Fixpoint backoff (delay : Z) (k : nat) : list Z :=
  match k with
  | O => []
  | S k' => delay :: backoff (delay * 2) k'
  end.

(** A response with status 200 whose document carries [text] as the text of
    the first part of the first candidate's content. *)
Definition answer (text : string) : jsval :=
  JObj [("candidates",
         JArr [JObj [("content",
                      JObj [("parts", JArr [JObj [("text", JStr text)]]);
                            ("role", JStr "model")])]])].

End Gemini.

(* ================================================================== *)
(** ** The telemetry poller, idealised

    JavaScript numbers are idealised as real numbers here: [Math.PI],
    [Math.sin] and [Math.cos] are [PI], [sin] and [cos], and the rounding of
    binary64 arithmetic and of the Float32 storage of a line's positions is
    left out; the document of the endpoint is taken to be a sample, a record
    of numbers.  The facts stated of this model are about requests, frames,
    lengths and order; what the numbers are is the matter of [Telemetry]
    below. *)

Module Tracker.

Definition API_URL_ISS : string :=
  "https://api.wheretheiss.at/v1/satellites/25544".

(** The document of the satellite-position endpoint. *)
Record sample : Type := mkSample {
  latitude : R;
  longitude : R;
  altitude : R;
  velocity : R;
  visibility : string
}.

Record Vector3 : Type := mkVector3 { x : R; y : R; z : R }.

(** three.js, [Vector3.setFromSphericalCoords(radius, phi, theta)]:
    [phi] is the polar angle from the y axis, [theta] the angle around it
    from the z axis. *)
Definition setFromSphericalCoords (radius phi theta : R) : Vector3 :=
  let sinPhiRadius := (sin phi * radius)%R in
  mkVector3 (sinPhiRadius * sin theta) (cos phi * radius)
            (sinPhiRadius * cos theta).

(** part_001:217-219 *)
Definition phi_of (latitude : R) : R := ((90 - latitude) * (PI / 180))%R.
Definition theta_of (longitude : R) : R := ((longitude + 180) * (PI / 180))%R.
Definition issRadius_of (altitude : R) : R := (2.1 + altitude / 6371)%R.
Definition groundTrackRadius : R := 2.01%R.

(** A [THREE.Line] as far as the poller touches it: the array of its
    geometry's [position] attribute, [None] when the attribute is absent. *)
Record Line : Type := mkLine { position : option (list R) }.

(** The component: the two pieces of React state and the three refs the
    poller reads ([None] for a ref whose [current] is [null]); of the ISS
    mesh only its position matters. *)
Record tracker : Type := mkTracker {
  issData : option sample;
  error : option string;
  issMeshRef : option Vector3;
  orbitLineRef : option Line;
  groundTrackLineRef : option Line
}.

Definition setIssData (d : option sample) (st : tracker) : tracker :=
  mkTracker d (error st) (issMeshRef st) (orbitLineRef st)
            (groundTrackLineRef st).

Definition setError (e : option string) (st : tracker) : tracker :=
  mkTracker (issData st) e (issMeshRef st) (orbitLineRef st)
            (groundTrackLineRef st).

Definition setIssMesh (m : option Vector3) (st : tracker) : tracker :=
  mkTracker (issData st) (error st) m (orbitLineRef st)
            (groundTrackLineRef st).

Definition setOrbitLine (l : option Line) (st : tracker) : tracker :=
  mkTracker (issData st) (error st) (issMeshRef st) l
            (groundTrackLineRef st).

Definition setGroundTrackLine (l : option Line) (st : tracker) : tracker :=
  mkTracker (issData st) (error st) (issMeshRef st) (orbitLineRef st) l.

(** [attributes.position ? Array.from(attributes.position.array) : []] *)
Definition points_of (l : Line) : list R :=
  match position l with
  | Some a => a
  | None => []
  end.

(** The three coordinates of a point, as they are pushed. *)
Definition coords (p : Vector3) : list R := [x p; y p; z p].

(** [points.push(p.x, p.y, p.z); if (points.length > 3000) points.splice(0, 3)]
    (part_001:229-230 and 238-239). *)
Definition push_point (points : list R) (p : Vector3) : list R :=
  let points := (points ++ [x p; y p; z p])%list in
  if (3000 <? List.length points)%nat then skipn 3 points else points.

Section Poller.

Variable script : nat -> fetched sample.

(** [catch (err) { setError(err.message); console.error(...) }] *)
Definition on_error (err : jsexn) (st : tracker) : M tracker :=
  emit (ConsoleErrorExn "Failed to fetch ISS data:" err) ;;;
  ret (setError (Some (exn_message err)) st).

Definition fetchISSData (st : tracker) : M tracker :=
  response <- fetch script API_URL_ISS None ;;
  match response with
  | NetworkFailure e => on_error e st
  | Response r =>
      if negb (ok r) then on_error (Error "Network response was not ok") st
      else
        match json r with
        | Rejected e => on_error e st
        | Fulfilled data =>
            let st := setError None (setIssData (Some data) st) in
            let phi := phi_of (latitude data) in
            let theta := theta_of (longitude data) in
            let issRadius := issRadius_of (altitude data) in
            let st :=
              match issMeshRef st with
              | Some _ =>
                  setIssMesh (Some (setFromSphericalCoords issRadius phi theta)) st
              | None => st
              end in
            (* the orbit line; reading [issMeshRef.current.position] throws
               when the ref is null *)
            let orbit : settled tracker :=
              match orbitLineRef st with
              | Some line =>
                  match issMeshRef st with
                  | Some pos =>
                      Fulfilled
                        (setOrbitLine
                           (Some (mkLine (Some (push_point (points_of line) pos))))
                           st)
                  | None => Rejected (TypeError_read "null" "position")
                  end
              | None => Fulfilled st
              end in
            match orbit with
            | Rejected e => on_error e st
            | Fulfilled st =>
                match groundTrackLineRef st with
                | Some line =>
                    let groundPosition :=
                      setFromSphericalCoords groundTrackRadius phi theta in
                    ret (setGroundTrackLine
                           (Some (mkLine (Some (push_point (points_of line)
                                                           groundPosition))))
                           st)
                | None => ret st
                end
            end
        end
  end.

(** [fetchISSData(); setInterval(fetchISSData, 5000)]: the first [n] polls,
    each settled before the next starts. *)
Fixpoint poll (n : nat) (st : tracker) : M tracker :=
  match n with
  | O => ret st
  | S n' => st' <- fetchISSData st ;; poll n' st'
  end.

End Poller.

(** The component after the effect has built the scene (part_001:122-181):
    no sample, no error, the mesh at the origin, both lines with an empty
    [position] attribute. *)
Definition mounted : tracker :=
  mkTracker None None (Some (mkVector3 0 0 0))
            (Some (mkLine (Some []))) (Some (mkLine (Some []))).

(** The coordinates a trail holds: those of the line's [position] array
    (none while the ref is null). *)
Definition trail (l : option Line) : list R :=
  match l with
  | Some line => points_of line
  | None => []
  end.

Definition orbit_trail (st : tracker) : list R := trail (orbitLineRef st).
Definition ground_trail (st : tracker) : list R := trail (groundTrackLineRef st).

(** [3 * m] coordinates, [m <= 1000] points. *)
Definition capped (points : list R) : Prop :=
  exists m, List.length points = (3 * m)%nat /\ (m <= 1000)%nat.

(** The refs are set, as they are from mounting on. *)
Definition scene_ready (st : tracker) : Prop :=
  issMeshRef st <> None /\ orbitLineRef st <> None
  /\ groundTrackLineRef st <> None.

(** The two points a successful poll appends for the document [data]. *)
Definition iss_point (data : sample) : Vector3 :=
  setFromSphericalCoords (issRadius_of (altitude data))
                         (phi_of (latitude data)) (theta_of (longitude data)).

Definition ground_point (data : sample) : Vector3 :=
  setFromSphericalCoords groundTrackRadius
                         (phi_of (latitude data)) (theta_of (longitude data)).

(** The error string a failed poll shows: the message of the rejection of
    [fetch], or the fixed message for a status outside 200-299. *)
Definition poll_failure (o : fetched sample) : option string :=
  match o with
  | NetworkFailure e => Some (exn_message e)
  | Response r =>
      if ok r then None else Some "Network response was not ok"
  end.

End Tracker.

(* ================================================================== *)
(** ** The chatbot's send handler *)

Module Chatbot.

Inductive sender : Type := user | bot.

(** [{ text, sender }] *)
Record message : Type := mkMessage { text : jsval; sender_of : sender }.

(** The component's state. *)
Record chat : Type := mkChat {
  messages : list message;
  input : string;
  isLoading : bool
}.

Definition greeting : string :=
  "Hello! I'm an AI expert on NASA's history. Ask me anything about missions, astronauts, or discoveries!".

Definition apology : string :=
  "Sorry, I'm having trouble connecting to my knowledge base right now. Please try again in a moment.".

Definition instructions : string :=
  "You are a helpful and knowledgeable assistant specializing in NASA's history. Answer the following question concisely and accurately. Question: ".

Definition initial : chat := mkChat [mkMessage (JStr greeting) bot] "" false.

(** *** [String.prototype.trim]

    The white space and line terminators of ECMAScript, by their UTF-8
    encodings.  In one byte: U+0009 to U+000D and U+0020. *)
Definition space1 (c : ascii) : bool :=
  let n := nat_of_ascii c in
  ((9 <=? n)%nat && (n <=? 13)%nat) || (n =? 32)%nat.

(** In two bytes: U+00A0 (C2 A0). *)
Definition space2 (c1 c2 : ascii) : bool :=
  (nat_of_ascii c1 =? 194)%nat && (nat_of_ascii c2 =? 160)%nat.

(** In three bytes: U+1680 (E1 9A 80), U+2000 to U+200A (E2 80 80-8A),
    U+2028 and U+2029 (E2 80 A8, A9), U+202F (E2 80 AF), U+205F (E2 81 9F),
    U+3000 (E3 80 80) and U+FEFF (EF BB BF). *)
Definition space3 (c1 c2 c3 : ascii) : bool :=
  let n1 := nat_of_ascii c1 in
  let n2 := nat_of_ascii c2 in
  let n3 := nat_of_ascii c3 in
  ((n1 =? 225) && (n2 =? 154) && (n3 =? 128))%nat
  || ((n1 =? 226) && (n2 =? 128)
      && (((128 <=? n3) && (n3 <=? 138))
          || (n3 =? 168) || (n3 =? 169) || (n3 =? 175)))%nat
  || ((n1 =? 226) && (n2 =? 129) && (n3 =? 159))%nat
  || ((n1 =? 227) && (n2 =? 128) && (n3 =? 128))%nat
  || ((n1 =? 239) && (n2 =? 187) && (n3 =? 191))%nat.

(** Empty, or white space only. *)
Fixpoint blank (s : string) : bool :=
  match s with
  | EmptyString => true
  | String c1 s1 =>
      if space1 c1 then blank s1
      else
        match s1 with
        | EmptyString => false
        | String c2 s2 =>
            if space2 c1 c2 then blank s2
            else
              match s2 with
              | EmptyString => false
              | String c3 s3 => if space3 c1 c2 c3 then blank s3 else false
              end
        end
  end.

Fixpoint trimStart (s : string) : string :=
  match s with
  | EmptyString => EmptyString
  | String c1 s1 =>
      if space1 c1 then trimStart s1
      else
        match s1 with
        | EmptyString => s
        | String c2 s2 =>
            if space2 c1 c2 then trimStart s2
            else
              match s2 with
              | EmptyString => s
              | String c3 s3 => if space3 c1 c2 c3 then trimStart s3 else s
              end
        end
  end.

(** The string is cut where only white space follows. *)
Fixpoint trimEnd (s : string) : string :=
  match s with
  | EmptyString => EmptyString
  | String c s' => if blank s then EmptyString else String c (trimEnd s')
  end.

Definition trim (s : string) : string := trimEnd (trimStart s).

(** *** The state and its setters

    A call of a setter is recorded in the trace with the value the state
    takes, as the next render shows it. *)
Definition show_sender (s : sender) : string :=
  match s with
  | user => "user"
  | bot => "bot"
  end.

Definition render (m : message) : jsval :=
  JObj [("text", text m); ("sender", JStr (show_sender (sender_of m)))].

Definition setMessages (f : list message -> list message) (st : chat) : M chat :=
  let ms := f (messages st) in
  emit (SetState "messages" (JArr (map render ms))) ;;;
  ret (mkChat ms (input st) (isLoading st)).

Definition setInput (s : string) (st : chat) : M chat :=
  emit (SetState "input" (JStr s)) ;;;
  ret (mkChat (messages st) s (isLoading st)).

Definition setIsLoading (b : bool) (st : chat) : M chat :=
  emit (SetState "isLoading" (JBool b)) ;;;
  ret (mkChat (messages st) (input st) b).

Section Handler.

Variable script : nat -> fetched jsval.
Variable literalKey : string.

(** [input.trim() === '' || isLoading] *)
Definition nothing_to_send (st : chat) : bool :=
  String.eqb (trim (input st)) "" || isLoading st.

(** part_001:915-934 *)
Definition handleSend (st : chat) : M chat :=
  if nothing_to_send st then ret st
  else
    let userMessage := mkMessage (JStr (input st)) user in
    st' <- setMessages (fun prev => (prev ++ [userMessage])%list) st ;;
    let currentInput := input st in
    st' <- setInput "" st' ;;
    st' <- setIsLoading true st' ;;
    (* try { ... } catch (error) { ... } *)
    let prompt := instructions ++ currentInput in
    (* [callGeminiAPI(prompt)]: retry count and delay by default *)
    r <- Gemini.callGeminiAPI_literal script literalKey prompt
           Gemini.default_retries Gemini.default_delay ;;
    st' <- match r with
           | Fulfilled botResponseText =>
               let botMessage := mkMessage botResponseText bot in
               setMessages (fun prev => (prev ++ [botMessage])%list) st'
           | Rejected error =>
               emit (ConsoleErrorExn "Failed to get response from AI:" error) ;;;
               let errorMessage := mkMessage (JStr apology) bot in
               setMessages (fun prev => (prev ++ [errorMessage])%list) st'
           end ;;
    (* finally *)
    setIsLoading false st'.

End Handler.

End Chatbot.

(* ================================================================== *)
(** ** Concrete networks and inputs, used to run the definitions *)

Module Scenarios.

Definition w0 : world := mkWorld 0 [].

Definition question : string := "How high does the ISS fly?".
Definition reply : string := "About 400 km above the Earth.".

Definition ok_reply : response jsval :=
  mkResponse 200 (Fulfilled (Gemini.answer reply)).

Definition too_many_requests : response jsval :=
  mkResponse 429 (Fulfilled (JObj [("error", JObj [("code", JNum 429)])])).

(** 429 twice, then a well-formed success. *)
Definition rate_limited_twice (n : nat) : fetched jsval :=
  match n with
  | 0 | 1 => Response too_many_requests
  | _ => Response ok_reply
  end.

(** Every request fails in transport. *)
Definition offline (n : nat) : fetched jsval :=
  NetworkFailure (mkExn "TypeError" "Failed to fetch").

(** Status 500 once, then a well-formed success. *)
Definition server_error_once (n : nat) : fetched jsval :=
  match n with
  | 0 => Response (mkResponse 500 (Fulfilled (JObj [])))
  | _ => Response ok_reply
  end.

(** Every request is answered 200 with the JSON document [null]. *)
Definition null_document (n : nat) : fetched jsval :=
  Response (mkResponse 200 (Fulfilled JNull)).

(** Every request is answered with the well-formed success. *)
Definition answering (n : nat) : fetched jsval := Response ok_reply.

(** Telemetry: a sample over the equator at the prime meridian. *)
Definition overhead : Tracker.sample :=
  Tracker.mkSample 0 0 420 27600 "daylight".

Definition telemetry_up (n : nat) : fetched Tracker.sample :=
  Response (mkResponse 200 (Fulfilled overhead)).

Definition telemetry_down (n : nat) : fetched Tracker.sample :=
  NetworkFailure (mkExn "TypeError" "Failed to fetch").

(** The chatbot after its greeting, with a question typed, and with only
    white space typed. *)
Definition asking : Chatbot.chat :=
  Chatbot.mkChat (Chatbot.messages Chatbot.initial) question false.

Definition idle : Chatbot.chat :=
  Chatbot.mkChat (Chatbot.messages Chatbot.initial) "  " false.

(** White space beyond ASCII, in UTF-8: U+3000 (ideographic space), U+2003
    (em space), U+FEFF, U+00A0 and U+2028 (line separator). *)
Definition wide_blank : string :=
  string_of_list_ascii
    (map ascii_of_nat
         [227; 128; 128; 226; 128; 131; 239; 187; 191; 194; 160;
          226; 128; 168]).

Definition idle_wide : Chatbot.chat :=
  Chatbot.mkChat (Chatbot.messages Chatbot.initial) wide_blank false.

(** U+200B (zero width space) is no white space of the language. *)
Definition zero_width : string :=
  string_of_list_ascii (map ascii_of_nat [226; 128; 139]).

(** The tracker after one good poll. *)
Definition tracking : Tracker.tracker :=
  fst (Tracker.fetchISSData telemetry_up Tracker.mounted w0).

End Scenarios.

(* ================================================================== *)
(** ** Measures and further inputs *)

Module Waits.

(** The time spent in timer waits along a trace, in milliseconds. *)
Definition total_wait (t : list event) : Z :=
  fold_right Z.add 0%Z (sleeps t).

End Waits.

Module MoreScenarios.

(** An OK response whose first candidate carries the empty text. *)
Definition empty_text (n : nat) : fetched jsval :=
  Response (mkResponse 200 (Fulfilled (Gemini.answer ""))).

(** An OK response whose first candidate carries a number where the text
    should be. *)
Definition number_text (n : nat) : fetched jsval :=
  Response
    (mkResponse 200
       (Fulfilled
          (JObj [("candidates",
                  JArr [JObj [("content",
                               JObj [("parts",
                                      JArr [JObj [("text", JNum 42)]])])]])]))).

(** Four failures in transport, then the well-formed success. *)
Definition down_for_four (n : nat) : fetched jsval :=
  match n with
  | 0 | 1 | 2 | 3 => NetworkFailure (mkExn "TypeError" "Failed to fetch")
  | _ => Response Scenarios.ok_reply
  end.

(** Telemetry: status 200 with a body that is no JSON. *)
Definition telemetry_garbled (n : nat) : fetched Tracker.sample :=
  Response
    (mkResponse 200
       (Rejected (mkExn "SyntaxError"
                        "Unexpected token < in JSON at position 0"))).

(** Eight failures in transport, then the well-formed success. *)
Definition down_for_eight (n : nat) : fetched jsval :=
  if (n <? 8)%nat then NetworkFailure (mkExn "TypeError" "Failed to fetch")
  else Response Scenarios.ok_reply.

(** A rendering of numbers, to run the prompts of the panel with. *)
Definition digits (x : R) (n : nat) : string := "0.00".

End MoreScenarios.

(* ================================================================== *)
(** ** What a run of polls has delivered *)

Module PollHistory.

Import Tracker.

(** The sample a poll delivers: the document of an OK response. *)
Definition delivered (o : fetched sample) : option sample :=
  match o with
  | NetworkFailure _ => None
  | Response r =>
      if ok r then
        match json r with
        | Fulfilled data => Some data
        | Rejected _ => None
        end
      else None
  end.

(** The message of a poll that delivers nothing: that of the rejection of
    [fetch], the fixed one for a status outside 200-299, that of the
    rejection of [response.json()]. *)
Definition undelivered (o : fetched sample) : option string :=
  match o with
  | NetworkFailure e => Some (exn_message e)
  | Response r =>
      if ok r then
        match json r with
        | Fulfilled _ => None
        | Rejected e => Some (exn_message e)
        end
      else Some "Network response was not ok"
  end.

End PollHistory.

(* ================================================================== *)
(** ** A conversation with the chatbot *)

Module Conversation.

Import Chatbot.

(** The text of the bot message a settled client call leads to. *)
Definition bot_text (r : settled jsval) : jsval :=
  match r with
  | Fulfilled botResponseText => botResponseText
  | Rejected _ => JStr apology
  end.

Section Run.

Variable script : nat -> fetched jsval.
Variable literalKey : string.

(** The user types [s] ([onChange]: [setInput(e.target.value)]) and sends. *)
Definition type_and_send (s : string) (st : chat) : M chat :=
  st' <- setInput s st ;;
  handleSend script literalKey st'.

(** One input after the other, each send settled before the next. *)
Fixpoint converse (inputs : list string) (st : chat) : M chat :=
  match inputs with
  | [] => ret st
  | s :: rest => st' <- type_and_send s st ;; converse rest st'
  end.

End Run.

(** The inputs that are sent: those that are not blank. *)
Definition sent (inputs : list string) : list string :=
  filter (fun s => negb (blank s)) inputs.

(** A user message followed by the bot's message, for each exchange. *)
Definition exchanges (l : list (string * jsval)) : list message :=
  flat_map (fun sb => [mkMessage (JStr (fst sb)) user;
                       mkMessage (snd sb) bot]) l.

End Conversation.

(* ================================================================== *)
(** ** The history page: [handleLearnMore] (part_000:42-68) *)

Module History.

(** An entry of the timeline. *)
Record item : Type := mkItem { year : Z; event : string }.

(** [{ year, event, details }] *)
Record modal : Type :=
  mkModal { modal_year : Z; modal_event : string; details : jsval }.

(** The component's state. *)
Record history : Type := mkHistory {
  modalContent : option modal;
  isLoadingModal : bool
}.

Definition generating : string := "Generating details...".
Definition could_not_load : string := "Could not load details at this time.".

(** The double quote, as a string. *)
Definition dquote : string := String (ascii_of_nat 34) EmptyString.

Definition learn_prompt (it : item) : string :=
  "Provide a detailed, engaging summary of the following NASA-related event: "
  ++ dquote ++ event it ++ dquote
  ++ ". Explain its significance and key objectives.".

Definition setModalContent (m : option modal) (st : history) : history :=
  mkHistory m (isLoadingModal st).

Definition setIsLoadingModal (b : bool) (st : history) : history :=
  mkHistory (modalContent st) b.

(** The close button of the modal: [setModalContent(null)]. *)
Definition closeModal (st : history) : history := setModalContent None st.

(** What the modal shows. *)
Inductive view : Type :=
| NoModal
| Loader (y : Z) (ev : string)
| Details (y : Z) (ev : string) (d : jsval).

Definition shown (st : history) : view :=
  match modalContent st with
  | None => NoModal
  | Some m =>
      if isLoadingModal st then Loader (modal_year m) (modal_event m)
      else Details (modal_year m) (modal_event m) (details m)
  end.

(** part_000:57-59: what runs before the client is awaited. *)
Definition before_await (it : item) (st : history) : history * string :=
  let st := setIsLoadingModal true st in
  let st :=
    setModalContent (Some (mkModal (year it) (event it) (JStr generating))) st in
  (st, learn_prompt it).

(** part_000:60-67: what runs once the client has settled. *)
Definition after_await (it : item) (r : settled jsval) (st : history) : history :=
  let st :=
    match r with
    | Fulfilled details =>
        setModalContent (Some (mkModal (year it) (event it) details)) st
    | Rejected _ =>
        setModalContent
          (Some (mkModal (year it) (event it) (JStr could_not_load))) st
    end in
  setIsLoadingModal false st.

Section Handler.

Variable script : nat -> fetched jsval.
Variable literalKey : string.

Definition handleLearnMore (it : item) (st : history) : M history :=
  let (st, prompt) := before_await it st in
  r <- Gemini.callGeminiAPI_literal script literalKey prompt
         Gemini.default_retries Gemini.default_delay ;;
  ret (after_await it r st).

End Handler.

(** The details a settled client call leads to. *)
Definition details_of (r : settled jsval) : jsval :=
  match r with
  | Fulfilled d => d
  | Rejected _ => JStr could_not_load
  end.

End History.

(* ================================================================== *)
(** ** The tracker's panel: [predictNextCity] and [fetchGroundConditions]
    (part_001:401-449) *)

Module Panel.

(** [{ weather, location }] *)
Record ground : Type := mkGround { weather : jsval; location : jsval }.

(** The pieces of state the two functions read and write. *)
Record panel : Type := mkPanel {
  issData : option Tracker.sample;
  nextCity : jsval;
  isPredicting : bool;
  groundConditions : ground
}.

Definition setNextCity (c : jsval) (st : panel) : panel :=
  mkPanel (issData st) c (isPredicting st) (groundConditions st).

Definition setIsPredicting (b : bool) (st : panel) : panel :=
  mkPanel (issData st) (nextCity st) b (groundConditions st).

Definition setGroundConditions (g : ground) (st : panel) : panel :=
  mkPanel (issData st) (nextCity st) (isPredicting st) g.

Definition predicting : string := "Predicting...".
Definition prediction_failed : string := "Prediction failed.".
Definition not_available : string := "N/A".

Section Functions.

Variable script : nat -> fetched jsval.
Variable apiKey : option string.

(** [Number.prototype.toFixed], of the platform. *)
Variable toFixed : R -> nat -> string.

Definition city_prompt (d : Tracker.sample) : string :=
  "The International Space Station is currently at latitude "
  ++ toFixed (Tracker.latitude d) 4 ++ " and longitude "
  ++ toFixed (Tracker.longitude d) 4
  ++ ". Based on its typical orbital path, what is the next major city it will be visible from? Be concise.".

Definition weather_prompt (d : Tracker.sample) : string :=
  "The ISS is over latitude " ++ toFixed (Tracker.latitude d) 2
  ++ ", longitude " ++ toFixed (Tracker.longitude d) 2
  ++ ". What are the likely weather conditions on the ground (e.g., Clear, Cloudy, Stormy)? Provide a very short, one or two-word answer.".

Definition location_prompt (d : Tracker.sample) : string :=
  "Based on latitude " ++ toFixed (Tracker.latitude d) 2
  ++ " and longitude " ++ toFixed (Tracker.longitude d) 2
  ++ ", what country or ocean is the ISS currently over? Provide a short, one or two-word answer.".

(** [callGeminiAPI(prompt)] *)
Definition ask (prompt : string) : M (settled jsval) :=
  Gemini.callGeminiAPI script apiKey prompt
    Gemini.default_retries Gemini.default_delay.

(** part_001:418-431 *)
Definition predictNextCity (st : panel) : M panel :=
  match issData st with
  | None => ret st
  | Some d =>
      let st := setIsPredicting true st in
      let st := setNextCity (JStr predicting) st in
      r <- ask (city_prompt d) ;;
      let st :=
        match r with
        | Fulfilled city => setNextCity city st
        | Rejected _ => setNextCity (JStr prediction_failed) st
        end in
      ret (setIsPredicting false st)
  end.

(** part_001:433-449 *)
Definition fetchGroundConditions (currentIssData : option Tracker.sample)
    (st : panel) : M panel :=
  match currentIssData with
  | None => ret st
  | Some d =>
      r <- ask (weather_prompt d) ;;
      weatherCondition <-
        match r with
        | Fulfilled v => ret v
        | Rejected e =>
            emit (ConsoleErrorExn "Could not fetch weather:" e) ;;;
            ret (JStr not_available)
        end ;;
      r <- ask (location_prompt d) ;;
      groundLocation <-
        match r with
        | Fulfilled v => ret v
        | Rejected e =>
            emit (ConsoleErrorExn "Could not fetch location:" e) ;;;
            ret (JStr not_available)
        end ;;
      ret (setGroundConditions (mkGround weatherCondition groundLocation) st)
  end.

End Functions.

End Panel.

(* ================================================================== *)
(** ** The application shell: navigation (iss-test/src/App.jsx) *)

Module App.










End App.

(* ================================================================== *)
(** ** The poller of the tracker without ground track (part_001:710-743) *)

Module OrbitOnly.

Import Tracker.

Section Poller.

Variable script : nat -> fetched sample.

(** The same poll without the ground-track block; the component has no
    ground-track ref, the field of [tracker] for it is left alone. *)
Definition fetchISSData (st : tracker) : M tracker :=
  response <- fetch script API_URL_ISS None ;;
  match response with
  | NetworkFailure e => on_error e st
  | Response r =>
      if negb (ok r) then on_error (Error "Network response was not ok") st
      else
        match json r with
        | Rejected e => on_error e st
        | Fulfilled data =>
            let st := setError None (setIssData (Some data) st) in
            let phi := phi_of (latitude data) in
            let theta := theta_of (longitude data) in
            let issRadius := issRadius_of (altitude data) in
            let st :=
              match issMeshRef st with
              | Some _ =>
                  setIssMesh (Some (setFromSphericalCoords issRadius phi theta)) st
              | None => st
              end in
            match orbitLineRef st with
            | Some line =>
                match issMeshRef st with
                | Some pos =>
                    ret (setOrbitLine
                           (Some (mkLine (Some (push_point (points_of line) pos))))
                           st)
                | None => on_error (TypeError_read "null" "position") st
                end
            | None => ret st
            end
        end
  end.

End Poller.

End OrbitOnly.

(* ================================================================== *)
(** ** The telemetry poller in binary64

    The poller once more, with the numbers and the documents of JavaScript
    as they are: a number is a binary64 float, the body of a response is
    whatever JSON value arrives, and a line keeps its positions in a
    [Float32Array].  What the language leaves to the platform, or what is
    not spelled out here, is a field of [platform]. *)

Module Telemetry.

(** [Math.PI], the binary64 value next to pi. *)
Definition Math_PI : float := 3.141592653589793%float.

Record platform : Type := mkPlatform {
  (** [Math.sin] and [Math.cos]: implementation-approximated *)
  Math_sin : float -> float;
  Math_cos : float -> float;
  (** the conversion of a number to Float32, read back as a number *)
  Math_fround : float -> float;
  (** ToNumber of a string, an array or an object; it throws for an object
      whose [valueOf] and [toString] are no functions *)
  ToNumber_object : jsval -> settled float;
  (** [v + n] for a string, an array or an object [v] and a number [n] *)
  plus_object : jsval -> float -> settled jsval
}.

Record Vector3 : Type := mkVector3 { x : float; y : float; z : float }.

(** The exception of destructuring [null] or [undefined]. *)
Definition TypeError_destructure (prop source what : string) : jsexn :=
  mkExn "TypeError"
        ("Cannot destructure property '" ++ prop ++ "' of '" ++ source
         ++ "' as it is " ++ what ++ ".").

Definition and_then {A B : Type} (s : settled A) (k : A -> settled B)
    : settled B :=
  match s with
  | Fulfilled a => k a
  | Rejected e => Rejected e
  end.

(** A [THREE.Line] as far as the poller touches it: the array of its
    geometry's [position] attribute, [None] when the attribute is absent. *)
Record Line : Type := mkLine { position : option (list float) }.

(** The component: the two pieces of React state and the three refs the
    poller reads ([None] for a ref whose [current] is [null]); of the ISS
    mesh only its position matters. *)
Record tracker : Type := mkTracker {
  issData : jsval;
  error : option string;
  issMeshRef : option Vector3;
  orbitLineRef : option Line;
  groundTrackLineRef : option Line
}.

Definition setIssData (d : jsval) (st : tracker) : tracker :=
  mkTracker d (error st) (issMeshRef st) (orbitLineRef st)
            (groundTrackLineRef st).

Definition setError (e : option string) (st : tracker) : tracker :=
  mkTracker (issData st) e (issMeshRef st) (orbitLineRef st)
            (groundTrackLineRef st).

Definition setIssMesh (m : option Vector3) (st : tracker) : tracker :=
  mkTracker (issData st) (error st) m (orbitLineRef st)
            (groundTrackLineRef st).

Definition setOrbitLine (l : option Line) (st : tracker) : tracker :=
  mkTracker (issData st) (error st) (issMeshRef st) l
            (groundTrackLineRef st).

Definition setGroundTrackLine (l : option Line) (st : tracker) : tracker :=
  mkTracker (issData st) (error st) (issMeshRef st) (orbitLineRef st) l.

(** [attributes.position ? Array.from(attributes.position.array) : []] *)
Definition points_of (l : Line) : list float :=
  match position l with
  | Some a => a
  | None => []
  end.

(** The three coordinates of a point, as they are pushed. *)
Definition coords (p : Vector3) : list float := [x p; y p; z p].

(** [points.push(p.x, p.y, p.z); if (points.length > 3000) points.splice(0, 3)]
    (part_001:229-230 and 238-239). *)
Definition push_point (points : list float) (p : Vector3) : list float :=
  let points := (points ++ [x p; y p; z p])%list in
  if (3000 <? List.length points)%nat then skipn 3 points else points.

(** The angles and the radius computed from a document (part_001:218-219). *)
Record geometry : Type := mkGeometry {
  phi : float;
  theta : float;
  issRadius : float
}.

Section Poller.

Variable P : platform.

(** three.js, [Vector3.setFromSphericalCoords(radius, phi, theta)]:
    [phi] is the polar angle from the y axis, [theta] the angle around it
    from the z axis. *)
Definition setFromSphericalCoords (radius phi theta : float) : Vector3 :=
  let sinPhiRadius := (Math_sin P phi * radius)%float in
  mkVector3 (sinPhiRadius * Math_sin P theta)%float
            (Math_cos P phi * radius)%float
            (sinPhiRadius * Math_cos P theta)%float.

(** ToNumber, as the arithmetic operators apply it to an operand. *)
Definition ToNumber (v : jsval) : settled float :=
  match v with
  | JUndefined => Fulfilled nan
  | JNull => Fulfilled 0%float
  | JBool b => Fulfilled (if b then 1%float else 0%float)
  | JNum n => Fulfilled n
  | JStr _ | JArr _ | JObj _ => ToNumber_object P v
  end.

(** [v + n] for a number [n]: a sum of numbers unless [v] is a string, an
    array or an object. *)
Definition plus (v : jsval) (n : float) : settled jsval :=
  match v with
  | JStr _ | JArr _ | JObj _ => plus_object P v n
  | _ => and_then (ToNumber v) (fun a => Fulfilled (JNum (a + n)%float))
  end.

(** part_001:216-219.  Destructuring throws on [null]; of any other value
    it reads the three properties, [undefined] where there is none. *)
Definition geometry_of (data : jsval) : settled geometry :=
  if nullish data
  then Rejected (TypeError_destructure "latitude" "data" (show_nullish data))
  else
    let latitude := get data (Name "latitude") in
    let longitude := get data (Name "longitude") in
    let altitude := get data (Name "altitude") in
    and_then (ToNumber latitude) (fun lat =>
    let phi := ((90 - lat) * (Math_PI / 180))%float in
    and_then (plus longitude 180) (fun sum =>
    and_then (ToNumber sum) (fun deg =>
    let theta := (deg * (Math_PI / 180))%float in
    and_then (ToNumber altitude) (fun alt =>
    let issRadius := (2.1 + alt / 6371)%float in
    Fulfilled (mkGeometry phi theta issRadius))))).

(** [new THREE.Float32BufferAttribute(points, 3)]: the numbers are stored
    in a [Float32Array]. *)
Definition Float32BufferAttribute (points : list float) : Line :=
  mkLine (Some (map (Math_fround P) points)).

(** part_001:221-243, for a document whose geometry has been computed.
    The one exception here, reading [position] of a null mesh ref, is
    raised before anything has been written. *)
Definition place (g : geometry) (st : tracker) : settled tracker :=
  let st :=
    match issMeshRef st with
    | Some _ =>
        let issPosition :=
          setFromSphericalCoords (issRadius g) (phi g) (theta g) in
        setIssMesh (Some issPosition) st
    | None => st
    end in
  and_then
    match orbitLineRef st with
    | Some line =>
        match issMeshRef st with
        | Some pos =>
            let points := push_point (points_of line) pos in
            Fulfilled (setOrbitLine (Some (Float32BufferAttribute points)) st)
        | None => Rejected (TypeError_read "null" "position")
        end
    | None => Fulfilled st
    end
    (fun st =>
       match groundTrackLineRef st with
       | Some line =>
           let groundTrackRadius := 2.01%float in
           let groundPosition :=
             setFromSphericalCoords groundTrackRadius (phi g) (theta g) in
           let points := push_point (points_of line) groundPosition in
           Fulfilled
             (setGroundTrackLine (Some (Float32BufferAttribute points)) st)
       | None => Fulfilled st
       end).

Variable script : nat -> fetched jsval.

(** [catch (err) { setError(err.message); console.error(...) }] *)
Definition on_error (err : jsexn) (st : tracker) : M tracker :=
  emit (ConsoleErrorExn "Failed to fetch ISS data:" err) ;;;
  ret (setError (Some (exn_message err)) st).

(** part_001:208-245 *)
Definition fetchISSData (st : tracker) : M tracker :=
  response <- fetch script Tracker.API_URL_ISS None ;;
  match response with
  | NetworkFailure e => on_error e st
  | Response r =>
      if negb (ok r) then on_error (Error "Network response was not ok") st
      else
        match json r with
        | Rejected e => on_error e st
        | Fulfilled data =>
            let st := setError None (setIssData data st) in
            match and_then (geometry_of data) (fun g => place g st) with
            | Fulfilled st => ret st
            | Rejected e => on_error e st
            end
        end
  end.

(** [fetchISSData(); setInterval(fetchISSData, 5000)]: the first [n] polls,
    each settled before the next starts. *)
Fixpoint poll (n : nat) (st : tracker) : M tracker :=
  match n with
  | O => ret st
  | S n' => st' <- fetchISSData st ;; poll n' st'
  end.

(** The point of the ISS and the point of the ground track for a
    geometry. *)
Definition iss_point (g : geometry) : Vector3 :=
  setFromSphericalCoords (issRadius g) (phi g) (theta g).

Definition ground_point (g : geometry) : Vector3 :=
  setFromSphericalCoords 2.01%float (phi g) (theta g).

End Poller.

(** The component after the effect has built the scene (part_001:122-181):
    [issData] and [error] are [null], the mesh is at the origin, both lines
    have an empty [position] attribute. *)
Definition mounted : tracker :=
  mkTracker JNull None (Some (mkVector3 0 0 0))
            (Some (mkLine (Some []))) (Some (mkLine (Some []))).

(** The coordinates a trail holds: those of the line's [position] array
    (none while the ref is null). *)
Definition trail (l : option Line) : list float :=
  match l with
  | Some line => points_of line
  | None => []
  end.

Definition orbit_trail (st : tracker) : list float := trail (orbitLineRef st).
Definition ground_trail (st : tracker) : list float :=
  trail (groundTrackLineRef st).

(** The refs are set, as they are from mounting on. *)
Definition scene_ready (st : tracker) : Prop :=
  issMeshRef st <> None /\ orbitLineRef st <> None
  /\ groundTrackLineRef st <> None.

End Telemetry.

(* ================================================================== *)
(** ** What a run of polls has delivered, in binary64 *)

Module TelemetryHistory.

Import Telemetry.

(** The document a poll delivers: the body of an OK response, parsed. *)
Definition parsed (o : fetched jsval) : option jsval :=
  match o with
  | NetworkFailure _ => None
  | Response r =>
      if ok r then
        match json r with
        | Fulfilled data => Some data
        | Rejected _ => None
        end
      else None
  end.

(** The geometry of the document a poll delivers, when it has one. *)
Definition placed (P : platform) (o : fetched jsval) : option geometry :=
  match parsed o with
  | Some data =>
      match geometry_of P data with
      | Fulfilled g => Some g
      | Rejected _ => None
      end
  | None => None
  end.

(** The error string a poll leaves in a component whose refs are set:
    none when a document arrived and its geometry was computed. *)
Definition poll_error (P : platform) (o : fetched jsval) : option string :=
  match o with
  | NetworkFailure e => Some (exn_message e)
  | Response r =>
      if ok r then
        match json r with
        | Fulfilled data =>
            match geometry_of P data with
            | Fulfilled _ => None
            | Rejected e => Some (exn_message e)
            end
        | Rejected e => Some (exn_message e)
        end
      else Some "Network response was not ok"
  end.

(** What the polls [start], ..., [start + n - 1] of a script deliver,
    oldest first. *)
Fixpoint collect {A : Type} (f : fetched jsval -> option A)
    (script : nat -> fetched jsval) (start n : nat) : list A :=
  match n with
  | O => []
  | S n' =>
      match f (script start) with
      | Some a => a :: collect f script (S start) n'
      | None => collect f script (S start) n'
      end
  end.

(** The coordinates of a sequence of appended points as a trail without cap
    would hold them: every append converts the whole array to Float32 again,
    so a point that has seen [k] appends, its own included, has been
    converted [k] times. *)
Fixpoint conversions (fround : float -> float) (ps : list Vector3)
    : list float :=
  match ps with
  | [] => []
  | p :: rest =>
      (map (Nat.iter (S (List.length rest)) fround) (coords p)
       ++ conversions fround rest)%list
  end.

(** A document with the three numbers the poller reads, and the rest of a
    sample of the endpoint. *)
Definition sample (latitude longitude altitude : float) : jsval :=
  JObj [("name", JStr "iss"); ("id", JNum 25544);
        ("latitude", JNum latitude); ("longitude", JNum longitude);
        ("altitude", JNum altitude); ("visibility", JStr "daylight")].

End TelemetryHistory.

(* ================================================================== *)
(** ** A platform to run the poller on *)

Module Engine.

Import Telemetry.

(** [Math.sin] and [Math.cos] at the angles of the reference points, as
    V8, SpiderMonkey and JavaScriptCore return them: [Math.sin(Math.PI)] is
    1.2246467991473532e-16 and [Math.cos(Math.PI / 2)] is
    6.123233995736766e-17.  No other angle is asked for below; the table
    answers NaN there. *)
Definition sin (a : float) : float :=
  if PrimFloat.is_zero a then a
  else if PrimFloat.eqb a (Math_PI / 2) then 1%float
  else if PrimFloat.eqb a Math_PI then 1.2246467991473532e-16%float
  else nan.

Definition cos (a : float) : float :=
  if PrimFloat.is_zero a then 1%float
  else if PrimFloat.eqb a (Math_PI / 2) then 6.123233995736766e-17%float
  else if PrimFloat.eqb a Math_PI then (-1)%float
  else nan.

(** The binary64 value of a finite number rounded to binary32 (24 bits of
    precision, exponents below 128), ties to even; the other numbers are
    kept. *)
Definition fround (a : float) : float :=
  match Prim2SF a with
  | S754_finite s m e =>
      match SpecFloat.binary_round 24 128 s m e with
      | S754_finite s' m' e' => SF2Prim (SpecFloat.binary_round 53 1024 s' m' e')
      | S754_zero s' => SF2Prim (S754_zero s')
      | S754_infinity s' => SF2Prim (S754_infinity s')
      | S754_nan => nan
      end
  | _ => a
  end.

(** The documents run below carry numbers only: no string, array or object
    is converted. *)
Definition numbers_only : platform :=
  mkPlatform sin cos fround
    (fun _ => Fulfilled nan) (fun v _ => Fulfilled v).

(** Polls answered with a sample over the equator at the prime meridian,
    with a sample over the south pole, with the document [null], and not
    at all. *)
Definition over_equator (n : nat) : fetched jsval :=
  Response (mkResponse 200 (Fulfilled (TelemetryHistory.sample 0 0 420))).



(** A sample, then the document [null]. *)
Definition sample_then_null (n : nat) : fetched jsval :=
  match n with
  | 0 => Response (mkResponse 200 (Fulfilled (TelemetryHistory.sample 0 0 420)))
  | _ => Response (mkResponse 200 (Fulfilled JNull))
  end.

End Engine.

(* ================================================================== *)
(** ** Binary64: a mantissa shifted left *)

Module Binary64.


End Binary64.
Import Binary64.

(* ================================================================== *)
(** ** Facts about the generative-answer client *)

Import Gemini.
Open Scope list_scope.
Open Scope nat_scope.

Lemma sleeps_app (t1 t2 : list event) :
  sleeps (t1 ++ t2) = sleeps t1 ++ sleeps t2.
Proof.
  induction t1 as [|e t1 IH]; [reflexivity|].
  destruct e; simpl; rewrite IH; reflexivity.
Qed.

Lemma fetches_app (t1 t2 : list event) :
  fetches (t1 ++ t2) = fetches t1 ++ fetches t2.
Proof.
  induction t1 as [|e t1 IH]; [reflexivity|].
  destruct e; simpl; rewrite IH; reflexivity.
Qed.

Lemma backoff_length (k : nat) : forall d, List.length (backoff d k) = k.
Proof. induction k; intros; simpl; [|rewrite IHk]; reflexivity. Qed.

Lemma backoff_snoc (k : nat) :
  forall d, backoff d (S k) = backoff d k ++ [(d * 2 ^ Z.of_nat k)%Z].
Proof.
  induction k as [|k IH]; intros d.
  - cbn [backoff app Z.of_nat]. f_equal. lia.
  - change (backoff d (S (S k))) with (d :: backoff (d * 2) (S k)).
    rewrite IH.
    change (backoff d (S k)) with (d :: backoff (d * 2) k).
    cbn [app]. do 3 f_equal.
    rewrite Nat2Z.inj_succ, Z.pow_succ_r by lia. lia.
Qed.

(** The i-th wait is the initial delay doubled i times. *)
Lemma backoff_nth (k : nat) :
  forall d i, i < k -> nth i (backoff d k) 0%Z = (d * 2 ^ Z.of_nat i)%Z.
Proof.
  induction k as [|k IH]; intros d i Hi; [lia|].
  destruct i as [|i]; cbn [backoff nth].
  - cbn [Z.of_nat]. lia.
  - rewrite IH by lia. rewrite Nat2Z.inj_succ, Z.pow_succ_r by lia. lia.
Qed.

(** Successive waits double. *)
Lemma backoff_doubles (k : nat) (d : Z) (i : nat) :
  S i < k ->
  nth (S i) (backoff d k) 0%Z = (2 * nth i (backoff d k) 0)%Z.
Proof.
  intros Hi. rewrite !backoff_nth by lia.
  rewrite Nat2Z.inj_succ, Z.pow_succ_r by lia. lia.
Qed.

(** *** Reading a document: the JSON path against JavaScript's accesses *)

Lemma lookup_field (k : string) (fs : list (string * jsval)) (v : jsval) :
  lookup k fs = Some v -> field k fs = v.
Proof.
  induction fs as [|[k' v'] fs IH]; cbn [lookup field]; [discriminate|].
  destruct (String.eqb k k'); [congruence|exact IH].
Qed.

Lemma at_path_step (v : jsval) (k : key) (p : list key) (x : jsval) :
  at_path v (k :: p) = Some x ->
  nullish v = false /\ at_path (get v k) p = Some x.
Proof.
  destruct k as [n|i]; cbn [at_path]; destruct v; try discriminate.
  - destruct (lookup n fields) as [v'|] eqn:E; [|discriminate].
    intros H. split; [reflexivity|].
    cbn [get show_key]. rewrite (lookup_field _ _ _ E). exact H.
  - destruct (nth_error elems i) as [v'|] eqn:E; [|discriminate].
    intros H. split; [reflexivity|].
    cbn [get]. rewrite (nth_error_nth _ _ _ E). exact H.
Qed.

Lemma at_path_strict_chain (p : list key) :
  forall v x, at_path v p = Some x -> strict_chain v p = Fulfilled x.
Proof.
  induction p as [|k p IH]; intros v x H.
  - cbn in *. congruence.
  - apply at_path_step in H. destruct H as [Hn H].
    cbn [strict_chain]. unfold member. rewrite Hn. apply IH, H.
Qed.

Lemma at_path_opt_chain (p : list key) :
  forall v x, at_path v p = Some x -> opt_chain v p = x.
Proof.
  induction p as [|k p IH]; intros v x H.
  - cbn in *. congruence.
  - apply at_path_step in H. destruct H as [Hn H].
    cbn [opt_chain]. rewrite Hn. apply IH, H.
Qed.

Lemma truthy_nonempty (s : string) : s <> "" -> truthy (JStr s) = true.
Proof.
  intros H. cbn [truthy]. destruct (String.eqb_spec s ""); [contradiction|reflexivity].
Qed.

(** A document that carries a non-empty text at [text_path] passes the
    client's test and yields that text. *)
Lemma candidate_test_text (doc : jsval) (text : string) :
  at_path doc text_path = Some (JStr text) -> text <> "" ->
  candidate_test doc = Fulfilled (JStr text)
  /\ strict_chain doc text_path = Fulfilled (JStr text).
Proof.
  intros H Hne. split; [|apply at_path_strict_chain, H].
  unfold text_path in H.
  apply at_path_step in H. destruct H as [Hn H].
  unfold candidate_test, member. rewrite Hn.
  assert (Ht : truthy (get doc (Name "candidates")) = true).
  { cbn [at_path] in H. destruct (get doc (Name "candidates")); try discriminate.
    reflexivity. }
  rewrite Ht. apply at_path_step in H. destruct H as [Hn0 H].
  rewrite Hn0. f_equal. apply at_path_opt_chain, H.
Qed.

(** *** One attempt of the environment-credential variant *)

Ltac run :=
  unfold bind, emit, sleep, ret, fetch; cbn [calls trace].

Ltac trace_eq :=
  cbn [calls trace];
  repeat rewrite <- app_assoc;
  rewrite ?sleeps_app, ?fetches_app; cbn [sleeps fetches app];
  rewrite ?app_nil_r; reflexivity.

Section ClientFacts.

Variable script : nat -> fetched jsval.
Variable apiKey : option string.
Hypothesis Hkey : key_configured apiKey = true.

(** A failed attempt with retries left waits [d] and starts over with one
    retry fewer and the delay doubled. *)
Lemma call_failed_retry (prompt : string) (r : nat) (d : Z) (w : world) (e : jsexn) :
  attempt_failure (script (calls w)) = Some e ->
  exists w1,
    callGeminiAPI script apiKey prompt (S r) d w
      = callGeminiAPI script apiKey prompt r (d * 2) w1
    /\ calls w1 = S (calls w)
    /\ sleeps (trace w1) = sleeps (trace w) ++ [d]
    /\ fetches (trace w1)
       = fetches (trace w) ++ [(apiUrl apiKey, Some (payload_of prompt))].
Proof.
  intros Hf.
  cbn [callGeminiAPI]. rewrite Hkey. cbn [negb].
  unfold bind at 1. unfold fetch at 1.
  unfold attempt_failure in Hf.
  destruct (script (calls w)) as [e0|resp].
  - run. eexists. split; [reflexivity|]. repeat split; trace_eq.
  - destruct (ok resp).
    + cbn [negb].
      destruct (json resp) as [doc|e0].
      * destruct doc; try discriminate; cbn [candidate_test member nullish];
          run; eexists; (split; [reflexivity|]); repeat split; trace_eq.
      * run. eexists. split; [reflexivity|]. repeat split; trace_eq.
    + cbn [negb]. destruct (status resp =? 429)%Z;
        run; eexists; (split; [reflexivity|]); repeat split; trace_eq.
Qed.

(** A failed attempt with no retry left rejects with that attempt's
    exception. *)
Lemma call_failed_last (prompt : string) (d : Z) (w : world) (e : jsexn) :
  attempt_failure (script (calls w)) = Some e ->
  exists w1,
    callGeminiAPI script apiKey prompt 0 d w = (Rejected e, w1)
    /\ calls w1 = S (calls w)
    /\ sleeps (trace w1) = sleeps (trace w)
    /\ fetches (trace w1)
       = fetches (trace w) ++ [(apiUrl apiKey, Some (payload_of prompt))].
Proof.
  intros Hf.
  cbn [callGeminiAPI]. rewrite Hkey. cbn [negb].
  unfold bind at 1. unfold fetch at 1.
  unfold attempt_failure in Hf.
  destruct (script (calls w)) as [e0|resp].
  - run. injection Hf as <-. eexists. split; [reflexivity|]. repeat split; trace_eq.
  - destruct (ok resp).
    + cbn [negb].
      destruct (json resp) as [doc|e0].
      * destruct doc; try discriminate; cbn [candidate_test member nullish] in *;
          run; injection Hf as <-; eexists; (split; [reflexivity|]);
          repeat split; trace_eq.
      * run. injection Hf as <-. eexists. split; [reflexivity|].
        repeat split; trace_eq.
    + cbn [negb]. injection Hf as <-. destruct (status resp =? 429)%Z;
        run; eexists; (split; [reflexivity|]); repeat split; trace_eq.
Qed.

(** [k] failed attempts in a row, within the retry bound. *)
Lemma call_failures (prompt : string) (k : nat) :
  forall (retries : nat) (d : Z) (w : world),
    k <= retries ->
    (forall i, i < k -> attempt_failure (script (calls w + i)) <> None) ->
    exists w1,
      callGeminiAPI script apiKey prompt retries d w
        = callGeminiAPI script apiKey prompt (retries - k) (d * 2 ^ Z.of_nat k) w1
      /\ calls w1 = calls w + k
      /\ sleeps (trace w1) = sleeps (trace w) ++ backoff d k
      /\ fetches (trace w1)
         = fetches (trace w)
           ++ repeat (apiUrl apiKey, Some (payload_of prompt)) k.
Proof.
  induction k as [|k IH]; intros retries d w Hk Hfail.
  - exists w. rewrite Nat.sub_0_r, Z.mul_1_r, Nat.add_0_r.
    cbn [backoff repeat]. rewrite !app_nil_r. auto.
  - destruct retries as [|retries]; [lia|].
    destruct (attempt_failure (script (calls w))) as [e|] eqn:E.
    2:{ exfalso. apply (Hfail 0); [lia|]. rewrite Nat.add_0_r. exact E. }
    destruct (call_failed_retry prompt retries d w e E) as (w1 & Hc & Hn & Hs & Hq).
    destruct (IH retries (d * 2)%Z w1) as (w2 & Hc2 & Hn2 & Hs2 & Hq2).
    + lia.
    + intros i Hi. rewrite Hn. replace (S (calls w) + i) with (calls w + S i) by lia.
      apply Hfail. lia.
    + exists w2. rewrite Hc, Hc2. split.
      * cbn [Nat.sub]. f_equal.
        rewrite Nat2Z.inj_succ, Z.pow_succ_r by lia. lia.
      * split; [lia|]. rewrite Hs2, Hs, Hq2, Hq.
        cbn [backoff repeat]. rewrite <- !app_assoc. auto.
Qed.

(** A well-formed success: one request, the text returned. *)
Lemma call_success (prompt : string) (retries : nat) (d : Z) (w : world)
    (r : response jsval) (doc : jsval) (text : string) :
  script (calls w) = Response r -> ok r = true -> json r = Fulfilled doc ->
  at_path doc text_path = Some (JStr text) -> text <> "" ->
  callGeminiAPI script apiKey prompt retries d w
  = (Fulfilled (JStr text),
     mkWorld (S (calls w))
             (trace w ++ [Fetch (apiUrl apiKey) (Some (payload_of prompt))])).
Proof.
  intros Hs Hok Hj Hp Hne.
  destruct (candidate_test_text doc text Hp Hne) as [Hc Hstrict].
  destruct retries; cbn [callGeminiAPI]; rewrite Hkey; cbn [negb];
    unfold bind at 1; unfold fetch at 1; rewrite Hs, Hok; cbn [negb];
    rewrite Hj, Hc, (truthy_nonempty _ Hne), Hstrict; reflexivity.
Qed.

End ClientFacts.

Lemma backoff_map (k : nat) (d : Z) :
  backoff d k = map (fun i => (d * 2 ^ Z.of_nat i)%Z) (seq 0 k).
Proof.
  induction k as [|k IH]; [reflexivity|].
  rewrite backoff_snoc, seq_S, map_app, IH. reflexivity.
Qed.

Lemma status_429_fails (r : response jsval) :
  status r = 429%Z -> attempt_failure (Response r) = Some (status_error 429).
Proof.
  intros H. unfold attempt_failure, ok. rewrite H. reflexivity.
Qed.

(** *** The claims about the client *)

(** C1.  For every prompt: when the endpoint answers HTTP 429 to the first
    [k] attempts ([k] within the retry bound) and the next attempt is
    answered with an OK response whose document carries a non-empty text at
    [candidates[0].content.parts[0].text], [callGeminiAPI] returns that
    text after [k + 1] requests, and the waits between the attempts are
    [delay], [2 * delay], [4 * delay], ...: the i-th wait is
    [delay * 2 ^ i]. *)
Theorem callGeminiAPI_429_then_success
    (script : nat -> fetched jsval) (apiKey : option string)
    (prompt : string) (retries : nat) (delay : Z) (w : world)
    (k : nat) (r : response jsval) (doc : jsval) (text : string) :
  key_configured apiKey = true ->
  k <= retries ->
  (forall i, i < k ->
     exists r429, script (calls w + i) = Response r429 /\ status r429 = 429%Z) ->
  script (calls w + k) = Response r ->
  ok r = true ->
  json r = Fulfilled doc ->
  at_path doc text_path = Some (JStr text) ->
  text <> "" ->
  exists w',
    callGeminiAPI script apiKey prompt retries delay w
      = (Fulfilled (JStr text), w')
    /\ calls w' = calls w + k + 1
    /\ sleeps (trace w')
       = sleeps (trace w) ++ map (fun i => (delay * 2 ^ Z.of_nat i)%Z) (seq 0 k).
Proof.
  intros Hkey Hk H429 Hs Hok Hj Hp Hne.
  destruct (call_failures script apiKey Hkey prompt k retries delay w Hk)
    as (w1 & Hc & Hn & Hsl & _).
  { intros i Hi. destruct (H429 i Hi) as (r429 & -> & Hst).
    rewrite (status_429_fails _ Hst). discriminate. }
  rewrite <- Hn in Hs.
  rewrite Hc, (call_success script apiKey Hkey prompt _ _ w1 r doc text Hs Hok Hj Hp Hne).
  eexists. split; [reflexivity|]. cbn [calls trace]. split; [lia|].
  rewrite sleeps_app, Hsl, backoff_map. cbn [sleeps]. apply app_nil_r.
Qed.

(** C2.  For every prompt: when each of the [retries + 1] attempts fails,
    [callGeminiAPI] makes exactly these [retries + 1] requests (the first
    and [retries] further ones), waits [retries] times, and rejects with
    the exception of the last attempt as it was raised there; it returns
    no value. *)
Theorem callGeminiAPI_exhausted_rethrows
    (script : nat -> fetched jsval) (apiKey : option string)
    (prompt : string) (retries : nat) (delay : Z) (w : world) (e : jsexn) :
  key_configured apiKey = true ->
  (forall i, i < retries -> attempt_failure (script (calls w + i)) <> None) ->
  attempt_failure (script (calls w + retries)) = Some e ->
  exists w',
    callGeminiAPI script apiKey prompt retries delay w = (Rejected e, w')
    /\ calls w' = calls w + retries + 1
    /\ sleeps (trace w')
       = sleeps (trace w)
         ++ map (fun i => (delay * 2 ^ Z.of_nat i)%Z) (seq 0 retries).
Proof.
  intros Hkey Hfail Hlast.
  destruct (call_failures script apiKey Hkey prompt retries retries delay w
              (Nat.le_refl _) Hfail) as (w1 & Hc & Hn & Hsl & _).
  rewrite Nat.sub_diag in Hc. rewrite <- Hn in Hlast.
  destruct (call_failed_last script apiKey Hkey prompt
              (delay * 2 ^ Z.of_nat retries) w1 e Hlast)
    as (w2 & Hc2 & Hn2 & Hsl2 & _).
  exists w2. rewrite Hc, Hc2. split; [reflexivity|]. split; [lia|].
  rewrite Hsl2, Hsl, backoff_map. reflexivity.
Qed.

(** C5.  For every OK response whose document has a non-empty text at
    [candidates[0].content.parts[0].text], [callGeminiAPI] returns exactly
    that text, after this one request. *)
Theorem callGeminiAPI_returns_candidate_text
    (script : nat -> fetched jsval) (apiKey : option string)
    (prompt : string) (retries : nat) (delay : Z) (w : world)
    (r : response jsval) (doc : jsval) (text : string) :
  key_configured apiKey = true ->
  script (calls w) = Response r ->
  ok r = true ->
  json r = Fulfilled doc ->
  at_path doc text_path = Some (JStr text) ->
  text <> "" ->
  callGeminiAPI script apiKey prompt retries delay w
  = (Fulfilled (JStr text),
     mkWorld (S (calls w))
             (trace w ++ [Fetch (apiUrl apiKey) (Some (payload_of prompt))])).
Proof.
  intros Hkey. apply call_success, Hkey.
Qed.

(** C6.  In the variant that takes the credential from the environment:
    when no credential is configured ([undefined] or the empty string),
    [callGeminiAPI] returns the descriptive error string at once, whatever
    the prompt, the retry count and the delay; it makes no request and
    waits for nothing, its only effect is the console diagnostic. *)
Theorem callGeminiAPI_missing_key
    (script : nat -> fetched jsval) (apiKey : option string)
    (prompt : string) (retries : nat) (delay : Z) (w : world) :
  key_configured apiKey = false ->
  callGeminiAPI script apiKey prompt retries delay w
  = (Fulfilled (JStr missing_key_msg),
     mkWorld (calls w) (trace w ++ [ConsoleError missing_key_msg])).
Proof.
  intros Hkey. destruct retries; cbn [callGeminiAPI]; rewrite Hkey; reflexivity.
Qed.

Import Scenarios.

Lemma callGeminiAPI_429_then_success_witness :
  exists w',
    callGeminiAPI rate_limited_twice (Some "key") question default_retries default_delay w0
      = (Fulfilled (JStr reply), w')
    /\ calls w' = 3
    /\ sleeps (trace w') = [1000; 2000]%Z.
Proof.
  apply (callGeminiAPI_429_then_success rate_limited_twice (Some "key")
           question 3 1000 w0 2 ok_reply (answer reply) reply).
  - reflexivity.
  - lia.
  - intros i Hi. exists too_many_requests.
    destruct i as [|[|i]]; [split; reflexivity | split; reflexivity | lia].
  - reflexivity.
  - reflexivity.
  - reflexivity.
  - reflexivity.
  - discriminate.
Defined.

Lemma callGeminiAPI_exhausted_rethrows_witness :
  exists w',
    callGeminiAPI offline (Some "key") question default_retries default_delay w0
      = (Rejected (mkExn "TypeError" "Failed to fetch"), w')
    /\ calls w' = 4
    /\ sleeps (trace w') = [1000; 2000; 4000]%Z.
Proof.
  apply (callGeminiAPI_exhausted_rethrows offline (Some "key") question 3 1000
           w0 (mkExn "TypeError" "Failed to fetch")).
  - reflexivity.
  - intros i _. discriminate.
  - reflexivity.
Defined.

Lemma callGeminiAPI_returns_candidate_text_witness :
  callGeminiAPI answering (Some "key") question default_retries default_delay w0
  = (Fulfilled (JStr reply),
     mkWorld 1 [Fetch (apiUrl (Some "key")) (Some (payload_of question))]).
Proof.
  apply (callGeminiAPI_returns_candidate_text answering (Some "key") question
           3 1000 w0 ok_reply (answer reply) reply);
    try reflexivity.
  discriminate.
Defined.

Lemma callGeminiAPI_missing_key_witness :
  callGeminiAPI answering None question default_retries default_delay w0
  = (Fulfilled (JStr missing_key_msg), mkWorld 0 [ConsoleError missing_key_msg]).
Proof.
  apply (callGeminiAPI_missing_key answering None question default_retries default_delay w0).
  reflexivity.
Defined.

(** C3.  Retries are meant for HTTP 429 and for transport failures only, any
    other error status being raised at once and no retry spent on it.  The
    code does otherwise: it throws the error it builds for such a status
    inside the [try] block, so its own [catch] takes it and retries while
    retries are left.  With the first answer 500 and the second a
    well-formed success, the call with the default arguments logs the
    error, waits 1000 ms, asks again and returns the text. *)
Theorem callGeminiAPI_status_500_is_retried :
  callGeminiAPI server_error_once (Some "key") question default_retries default_delay w0
  = (Fulfilled (JStr reply),
     mkWorld 2
       [Fetch (apiUrl (Some "key")) (Some (payload_of question));
        ConsoleErrorExn "Error calling Gemini API:" (status_error 500);
        Sleep 1000;
        Fetch (apiUrl (Some "key")) (Some (payload_of question))]).
Proof. vm_compute. reflexivity. Qed.

(** C4.  Every OK response whose document lacks the candidate shape is
    meant to yield the fallback string, never a failure.  For the JSON
    document [null] the code does otherwise: it reads [result.candidates]
    of [null], and the exception goes to the [catch], which retries and then
    rethrows.  With every answer 200 and [null], the call with the default
    arguments makes four requests and rejects with that exception. *)
Theorem callGeminiAPI_null_document_rejects :
  exists w',
    callGeminiAPI null_document (Some "key") question default_retries default_delay w0
      = (Rejected (TypeError_read "null" "candidates"), w')
    /\ calls w' = 4
    /\ sleeps (trace w') = [1000; 2000; 4000]%Z.
Proof. eexists. vm_compute. repeat split. Qed.

(** *** Documents other than [null], and the literal-credential variant *)

Lemma truthy_not_nullish (v : jsval) : truthy v = true -> nullish v = false.
Proof. destruct v; cbn; congruence. Qed.

Lemma opt_chain_truthy_strict (p : list key) :
  forall v, truthy (opt_chain v p) = true ->
            strict_chain v p = Fulfilled (opt_chain v p).
Proof.
  induction p as [|k p IH]; intros v H; [reflexivity|].
  cbn [opt_chain strict_chain] in *. unfold member.
  destruct (nullish v); [discriminate|]. apply IH, H.
Qed.

(** Whenever the test of the client passes, re-reading the path with plain
    accesses yields the tested value. *)
Lemma candidate_test_strict (doc t : jsval) :
  candidate_test doc = Fulfilled t -> truthy t = true ->
  strict_chain doc text_path = Fulfilled t.
Proof.
  unfold candidate_test, text_path.
  remember [Name "content"; Name "parts"; Idx 0; Name "text"] as rest.
  cbn [strict_chain]. unfold member.
  destruct (nullish doc); [discriminate|].
  destruct (truthy (get doc (Name "candidates"))) eqn:Hc.
  - rewrite (truthy_not_nullish _ Hc).
    intros H Ht. injection H as H. subst t.
    apply opt_chain_truthy_strict, Ht.
  - intros H Ht. injection H as H. congruence.
Qed.

(** An OK response with any document other than [null] settles the call
    at once and without a failure: with the tested value when the test
    passes, with the fallback string when it does not. *)
Lemma call_document_fulfils
    (script : nat -> fetched jsval) (apiKey : option string)
    (prompt : string) (retries : nat) (delay : Z) (w : world)
    (r : response jsval) (doc : jsval) :
  key_configured apiKey = true ->
  script (calls w) = Response r -> ok r = true -> json r = Fulfilled doc ->
  nullish doc = false ->
  exists t,
    candidate_test doc = Fulfilled t
    /\ callGeminiAPI script apiKey prompt retries delay w
       = if truthy t
         then (Fulfilled t,
               mkWorld (S (calls w))
                 (trace w ++ [Fetch (apiUrl apiKey) (Some (payload_of prompt))]))
         else (Fulfilled (JStr fallback),
               mkWorld (S (calls w))
                 (trace w
                  ++ [Fetch (apiUrl apiKey) (Some (payload_of prompt));
                      ConsoleErrorVal "Unexpected API response structure:" doc])).
Proof.
  intros Hkey Hs Hok Hj Hn.
  assert (Ht : exists t, candidate_test doc = Fulfilled t).
  { unfold candidate_test, member. rewrite Hn.
    destruct (truthy (get doc (Name "candidates"))) eqn:Hc; [|eauto].
    rewrite (truthy_not_nullish _ Hc). eauto. }
  destruct Ht as [t Ht]. exists t. split; [exact Ht|].
  destruct retries; cbn [callGeminiAPI]; rewrite Hkey; cbn [negb];
    unfold bind at 1; unfold fetch at 1; rewrite Hs, Hok; cbn [negb];
    rewrite Hj, Ht;
    (destruct (truthy t) eqn:Htr;
     [ rewrite (candidate_test_strict _ _ Ht Htr); reflexivity
     | run; rewrite <- app_assoc; reflexivity ]).
Qed.

(** A document that is an object without [candidates] gets the fallback. *)
Lemma call_no_candidates_fallback
    (script : nat -> fetched jsval) (apiKey : option string)
    (prompt : string) (retries : nat) (delay : Z) (w : world)
    (r : response jsval) (fs : list (string * jsval)) :
  key_configured apiKey = true ->
  script (calls w) = Response r -> ok r = true -> json r = Fulfilled (JObj fs) ->
  lookup "candidates" fs = None ->
  fst (callGeminiAPI script apiKey prompt retries delay w)
  = Fulfilled (JStr fallback).
Proof.
  intros Hkey Hs Hok Hj Hl.
  destruct (call_document_fulfils script apiKey prompt retries delay w r
              (JObj fs) Hkey Hs Hok Hj eq_refl) as (t & Ht & ->).
  assert (Hf : field "candidates" fs = JUndefined).
  { clear - Hl. induction fs as [|[k v] fs IH]; [reflexivity|].
    cbn [lookup field] in *. destruct (String.eqb "candidates" k); [discriminate|].
    apply IH, Hl. }
  unfold candidate_test, member in Ht. cbn [nullish get show_key] in Ht.
  rewrite Hf in Ht. cbn [truthy] in Ht. injection Ht as <-. reflexivity.
Qed.

(** With a non-empty credential the two variants of the client are the same
    function, the request URL included. *)
Lemma callGeminiAPI_literal_eq
    (script : nat -> fetched jsval) (key : string) (prompt : string)
    (retries : nat) :
  key <> "" ->
  forall (delay : Z) (w : world),
    callGeminiAPI_literal script key prompt retries delay w
    = callGeminiAPI script (Some key) prompt retries delay w.
Proof.
  intros Hne.
  assert (Hkey : key_configured (Some key) = true).
  { cbn. destruct (String.eqb_spec key ""); [contradiction|reflexivity]. }
  induction retries as [|retries IH]; intros delay w;
    cbn [callGeminiAPI callGeminiAPI_literal]; rewrite Hkey; cbn [negb];
    unfold apiUrl, literalUrl, bind, sleep, emit, ret, fetch;
    (destruct (script (calls w)) as [e|r];
     [| destruct (negb (ok r));
        [ destruct (status r =? 429)%Z
        | destruct (json r) as [doc|e];
          [ destruct (candidate_test doc) as [t|e];
            [ destruct (truthy t); [destruct (strict_chain doc text_path)|] |]
          |] ] ]);
    cbv beta iota; cbn [calls trace]; rewrite ?IH; reflexivity.
Qed.

(* ================================================================== *)
(** ** Facts about the telemetry poller *)

Import Tracker.

(** *** The capped append *)

Lemma push_point_cases (points : list R) (p : Vector3) (m : nat) :
  List.length points = 3 * m -> m <= 1000 ->
  (m < 1000 -> push_point points p = points ++ [x p; y p; z p])
  /\ (m = 1000 -> push_point points p = skipn 3 points ++ [x p; y p; z p])
  /\ List.length (push_point points p) = 3 * Nat.min (S m) 1000.
Proof.
  intros Hlen Hm. unfold push_point.
  assert (Hl : List.length (points ++ [x p; y p; z p]) = 3 * m + 3).
  { rewrite length_app, Hlen. reflexivity. }
  destruct (Nat.ltb_spec 3000 (List.length (points ++ [x p; y p; z p]))) as [Hgt|Hle].
  - assert (m = 1000) by lia. subst m. split; [lia|]. split.
    + intros _. rewrite skipn_app.
      replace (3 - List.length points) with 0 by lia. reflexivity.
    + rewrite length_skipn, Hl. reflexivity.
  - assert (m < 1000) by lia. split; [reflexivity|]. split; [lia|].
    rewrite Hl. lia.
Qed.

(** *** One poll *)

(** A poll answered with a sample, in a component whose three refs are set. *)
Lemma fetchISSData_success
    (script : nat -> fetched sample) (st : tracker) (w : world)
    (r : response sample) (data : sample) (pos0 : Vector3) (lo lg : Line) :
  script (calls w) = Response r -> ok r = true -> json r = Fulfilled data ->
  issMeshRef st = Some pos0 ->
  orbitLineRef st = Some lo ->
  groundTrackLineRef st = Some lg ->
  fetchISSData script st w
  = (mkTracker (Some data) None (Some (iss_point data))
       (Some (mkLine (Some (push_point (points_of lo) (iss_point data)))))
       (Some (mkLine (Some (push_point (points_of lg) (ground_point data))))),
     mkWorld (S (calls w)) (trace w ++ [Fetch API_URL_ISS None])).
Proof.
  intros Hs Hok Hj Hm Ho Hg.
  unfold fetchISSData, bind, fetch. rewrite Hs, Hok. cbn [negb]. rewrite Hj.
  unfold setError, setIssData, setIssMesh, setOrbitLine, setGroundTrackLine.
  cbn [issData error issMeshRef orbitLineRef groundTrackLineRef].
  rewrite Hm. cbn [issData error issMeshRef orbitLineRef groundTrackLineRef].
  rewrite Ho. cbn [issData error issMeshRef orbitLineRef groundTrackLineRef].
  rewrite Hg. reflexivity.
Qed.

(** A poll that fails in transport or with a status outside 200-299. *)
Lemma fetchISSData_failure
    (script : nat -> fetched sample) (st : tracker) (w : world) (msg : string) :
  poll_failure (script (calls w)) = Some msg ->
  exists e,
    exn_message e = msg
    /\ fetchISSData script st w
       = (setError (Some msg) st,
          mkWorld (S (calls w))
            (trace w ++ [Fetch API_URL_ISS None;
                         ConsoleErrorExn "Failed to fetch ISS data:" e])).
Proof.
  intros Hf. unfold fetchISSData, bind, fetch.
  unfold poll_failure in Hf.
  destruct (script (calls w)) as [e|r].
  - injection Hf as <-. exists e. split; [reflexivity|].
    unfold on_error, bind, emit, ret. cbn [calls trace].
    rewrite <- app_assoc. reflexivity.
  - destruct (ok r); [discriminate|]. injection Hf as <-.
    exists (Error "Network response was not ok"). split; [reflexivity|].
    cbn [negb]. unfold on_error, bind, emit, ret. cbn [calls trace].
    rewrite <- app_assoc. reflexivity.
Qed.

(** *** The trails stay within the cap *)

Lemma capped_push_point (points : list R) (p : Vector3) :
  capped points -> capped (push_point points p).
Proof.
  intros (m & Hl & Hm).
  destruct (push_point_cases points p m Hl Hm) as (_ & _ & H).
  exists (Nat.min (S m) 1000). split; [exact H|lia].
Qed.

Lemma fetchISSData_invariant
    (script : nat -> fetched sample) (st : tracker) (w : world) :
  scene_ready st -> capped (orbit_trail st) -> capped (ground_trail st) ->
  let st' := fst (fetchISSData script st w) in
  scene_ready st' /\ capped (orbit_trail st') /\ capped (ground_trail st').
Proof.
  intros Hready Ho Hg.
  destruct (poll_failure (script (calls w))) as [msg|] eqn:Hf.
  - destruct (fetchISSData_failure script st w msg Hf) as (e & _ & ->).
    cbn [fst]. auto.
  - unfold poll_failure in Hf.
    destruct (script (calls w)) as [e|r] eqn:Hs; [discriminate|].
    destruct (ok r) eqn:Hok; [|discriminate].
    destruct (json r) as [data|e] eqn:Hj.
    + destruct Hready as (Hm & Hlo & Hlg).
      destruct (issMeshRef st) as [pos0|] eqn:Em; [|contradiction].
      destruct (orbitLineRef st) as [lo|] eqn:Eo; [|contradiction].
      destruct (groundTrackLineRef st) as [lg|] eqn:Eg; [|contradiction].
      cbv zeta.
      rewrite (fetchISSData_success script st w r data pos0 lo lg
                 Hs Hok Hj Em Eo Eg).
      cbn [fst]. unfold scene_ready, orbit_trail, ground_trail in *.
      rewrite Eo in Ho. rewrite Eg in Hg.
      cbn [issMeshRef orbitLineRef groundTrackLineRef trail points_of position] in *.
      repeat split; try discriminate; apply capped_push_point; assumption.
    + cbv zeta. unfold fetchISSData, bind, fetch. rewrite Hs, Hok. cbn [negb].
      rewrite Hj. unfold on_error, bind, emit, ret. cbn [fst]. auto.
Qed.

Lemma mounted_invariant :
  scene_ready mounted /\ capped (orbit_trail mounted)
  /\ capped (ground_trail mounted).
Proof.
  repeat split; try discriminate; exists 0; split; (reflexivity || lia).
Qed.

Lemma poll_invariant (script : nat -> fetched sample) (n : nat) :
  forall (st : tracker) (w : world),
    scene_ready st -> capped (orbit_trail st) -> capped (ground_trail st) ->
    let st' := fst (poll script n st w) in
    scene_ready st' /\ capped (orbit_trail st') /\ capped (ground_trail st').
Proof.
  induction n as [|n IH]; intros st w Hr Ho Hg; cbv zeta.
  - cbn. auto.
  - cbn [poll]. unfold bind.
    destruct (fetchISSData_invariant script st w Hr Ho Hg) as (Hr' & Ho' & Hg').
    destruct (fetchISSData script st w) as [st1 w1]. cbn [fst] in *.
    apply IH; assumption.
Qed.

(** *** The claims about the poller *)

(** C7.  Whatever the network answers to the first [n] polls, each trail
    (orbital path and ground track) then holds a whole number of points, at
    most 1000 (3000 coordinates).  When the next poll is answered with a
    sample, each trail below the cap becomes the old trail followed by the
    new point, nothing removed; each trail at the cap becomes the old trail
    without its first point (its three oldest coordinates), the rest in the
    same order, followed by the new point. *)
Theorem trail_buffers_capped_fifo
    (script : nat -> fetched sample) (n : nat) (w : world) :
  let st := fst (poll script n mounted w) in
  let w1 := snd (poll script n mounted w) in
  (capped (orbit_trail st) /\ capped (ground_trail st)
   /\ List.length (orbit_trail st) <= 3000
   /\ List.length (ground_trail st) <= 3000)
  /\
  forall (r : response sample) (data : sample),
    script (calls w1) = Response r -> ok r = true -> json r = Fulfilled data ->
    let st' := fst (fetchISSData script st w1) in
    let p := iss_point data in
    let g := ground_point data in
    (List.length (orbit_trail st) < 3000 ->
       orbit_trail st' = orbit_trail st ++ [x p; y p; z p])
    /\ (List.length (orbit_trail st) = 3000 ->
       orbit_trail st' = skipn 3 (orbit_trail st) ++ [x p; y p; z p])
    /\ (List.length (ground_trail st) < 3000 ->
       ground_trail st' = ground_trail st ++ [x g; y g; z g])
    /\ (List.length (ground_trail st) = 3000 ->
       ground_trail st' = skipn 3 (ground_trail st) ++ [x g; y g; z g]).
Proof.
  cbv zeta.
  destruct mounted_invariant as (Hr0 & Ho0 & Hg0).
  destruct (poll_invariant script n mounted w Hr0 Ho0 Hg0) as (Hr & Ho & Hg).
  destruct (poll script n mounted w) as [st w1]. cbn [fst snd] in *.
  split.
  - repeat split; try assumption.
    + destruct Ho as (m & -> & Hm). lia.
    + destruct Hg as (m & -> & Hm). lia.
  - intros r data Hs Hok Hj.
    destruct Hr as (Hm & Hlo & Hlg).
    destruct (issMeshRef st) as [pos0|] eqn:Em; [|contradiction].
    destruct (orbitLineRef st) as [lo|] eqn:Eo; [|contradiction].
    destruct (groundTrackLineRef st) as [lg|] eqn:Eg; [|contradiction].
    rewrite (fetchISSData_success script st w1 r data pos0 lo lg
               Hs Hok Hj Em Eo Eg).
    unfold orbit_trail, ground_trail in *. rewrite Eo in *. rewrite Eg in *.
    cbn [fst orbitLineRef groundTrackLineRef trail points_of position] in *.
    destruct Ho as (mo & Hlo' & Hmo). destruct Hg as (mg & Hlg' & Hmg).
    destruct (push_point_cases (points_of lo) (iss_point data) mo Hlo' Hmo)
      as (Ho1 & Ho2 & _).
    destruct (push_point_cases (points_of lg) (ground_point data) mg Hlg' Hmg)
      as (Hg1 & Hg2 & _).
    unfold points_of in *.
    repeat split; intros Hlen;
      [apply Ho1 | apply Ho2 | apply Hg1 | apply Hg2]; lia.
Qed.

Lemma trail_buffers_capped_fifo_witness :
  let st := fst (poll telemetry_up 2 mounted w0) in
  let w1 := snd (poll telemetry_up 2 mounted w0) in
  let st' := fst (fetchISSData telemetry_up st w1) in
  let p := iss_point overhead in
  List.length (orbit_trail st) = 6
  /\ List.length (orbit_trail st) <= 3000
  /\ orbit_trail st' = orbit_trail st ++ [x p; y p; z p].
Proof.
  cbv zeta.
  destruct (trail_buffers_capped_fifo telemetry_up 2 w0) as [Hcap Hnext].
  specialize (Hnext (mkResponse 200 (Fulfilled overhead)) overhead
                    eq_refl eq_refl eq_refl).
  cbv zeta in Hnext. destruct Hnext as (Hbelow & _).
  assert (Hlen : List.length
                   (orbit_trail (fst (poll telemetry_up 2 mounted w0))) = 6)
    by reflexivity.
  split; [exact Hlen|]. split; [apply Hcap|].
  apply Hbelow. rewrite Hlen. lia.
Defined.

(** C9.  Every poll that fails, in transport or with a status outside
    200-299, leaves the stored sample, the mesh and both trails as they
    were and sets the error indicator to the failure's message; it makes
    its one request and no other, waits for nothing, and the polls that
    follow go on from there. *)
Theorem failed_poll_keeps_sample
    (script : nat -> fetched sample) (st : tracker) (w : world) (msg : string) :
  poll_failure (script (calls w)) = Some msg ->
  let st' := fst (fetchISSData script st w) in
  let w' := snd (fetchISSData script st w) in
  issData st' = issData st
  /\ issMeshRef st' = issMeshRef st
  /\ orbitLineRef st' = orbitLineRef st
  /\ groundTrackLineRef st' = groundTrackLineRef st
  /\ error st' = Some msg
  /\ calls w' = S (calls w)
  /\ fetches (trace w') = fetches (trace w) ++ [(API_URL_ISS, None)]
  /\ sleeps (trace w') = sleeps (trace w)
  /\ forall n, poll script (S n) st w = poll script n st' w'.
Proof.
  intros Hf. cbv zeta.
  assert (Hpoll : forall n, poll script (S n) st w
                  = poll script n (fst (fetchISSData script st w))
                                  (snd (fetchISSData script st w))).
  { intros n. cbn [poll]. unfold bind.
    destruct (fetchISSData script st w). reflexivity. }
  destruct (fetchISSData_failure script st w msg Hf) as (e & _ & Heq).
  rewrite Heq in *. cbn [fst snd calls trace].
  repeat split; try exact Hpoll.
  - rewrite fetches_app. cbn [fetches]. reflexivity.
  - rewrite sleeps_app. cbn [sleeps]. apply app_nil_r.
Qed.

Lemma failed_poll_keeps_sample_witness :
  let st' := fst (fetchISSData telemetry_down tracking w0) in
  issData st' = Some overhead
  /\ orbit_trail st' = orbit_trail tracking
  /\ ground_trail st' = ground_trail tracking
  /\ error st' = Some "Failed to fetch".
Proof.
  cbv zeta.
  destruct (failed_poll_keeps_sample telemetry_down tracking w0
              "Failed to fetch" eq_refl)
    as (Hd & _ & Ho & Hg & He & _).
  unfold orbit_trail, ground_trail. rewrite Hd, Ho, Hg, He.
  repeat split; reflexivity.
Defined.

(* ================================================================== *)
(** ** Facts about the chatbot's send handler *)

Import Chatbot.

Lemma blank_trimStart (s : string) : blank (trimStart s) = blank s.
Proof.
  assert (H : forall n s, String.length s <= n ->
                          blank (trimStart s) = blank s).
  { clear s. induction n as [|n IH]; intros s Hlen.
    - destruct s; [reflexivity|cbn in Hlen; lia].
    - destruct s as [|c1 s1]; [reflexivity|].
      cbn [String.length] in Hlen. cbn [trimStart].
      destruct (space1 c1) eqn:E1.
      { cbn [blank]. rewrite E1. apply IH. lia. }
      destruct s1 as [|c2 s2]; [reflexivity|].
      cbn [String.length] in Hlen.
      destruct (space2 c1 c2) eqn:E2.
      { cbn [blank]. rewrite E1, E2. apply IH. lia. }
      destruct s2 as [|c3 s3]; [reflexivity|].
      cbn [String.length] in Hlen.
      destruct (space3 c1 c2 c3) eqn:E3; [|reflexivity].
      cbn [blank]. rewrite E1, E2, E3. apply IH. lia. }
  apply (H (String.length s)). lia.
Qed.

Lemma trimEnd_empty (s : string) : trimEnd s = "" <-> blank s = true.
Proof.
  destruct s as [|c s]; [cbn; tauto|].
  cbn [trimEnd]. destruct (blank (String c s)); split; congruence.
Qed.

(** [input.trim() === ''] says that the input is empty or white space. *)
Lemma trim_empty (s : string) : String.eqb (trim s) "" = blank s.
Proof.
  unfold trim. rewrite <- blank_trimStart.
  destruct (String.eqb_spec (trimEnd (trimStart s)) "") as [H|H].
  - symmetry. apply trimEnd_empty, H.
  - destruct (blank (trimStart s)) eqn:E; [|reflexivity].
    apply trimEnd_empty in E. contradiction.
Qed.

(** The client with the key of the source starts with its request and only
    adds to the trace. *)
Lemma literal_first_request
    (script : nat -> fetched jsval) (key prompt : string) (retries : nat) :
  forall (delay : Z) (w : world),
  exists rest,
    trace (snd (callGeminiAPI_literal script key prompt retries delay w))
    = trace w ++ Fetch (literalUrl key) (Some (payload_of prompt)) :: rest.
Proof.
  induction retries as [|retries IH]; intros delay w;
    cbn [callGeminiAPI_literal];
    unfold bind, sleep, emit, ret, fetch;
    (destruct (script (calls w)) as [e|r];
     [| destruct (negb (ok r));
        [ destruct (status r =? 429)%Z
        | destruct (json r) as [doc|e];
          [ destruct (candidate_test doc) as [t|e];
            [ destruct (truthy t); [destruct (strict_chain doc text_path)|] |]
          |] ] ]);
    cbv beta iota; cbn [calls trace snd];
    try match goal with
    | |- exists _, trace (snd (callGeminiAPI_literal _ _ _ _ ?d ?w1)) = _ =>
        destruct (IH d w1) as [rest' ->]; cbn [trace]
    end;
    rewrite <- ?app_assoc; cbn [app]; eexists; reflexivity.
Qed.

(** A send that goes out, by how the client settles: the three writes, the
    client, then the bot message and the loading flag. *)
Lemma handleSend_settled
    (script : nat -> fetched jsval) (literalKey : string)
    (st : chat) (w w1 : world) (r : settled jsval) :
  let shown := messages st ++ [mkMessage (JStr (input st)) user] in
  let answered := messages st ++ [mkMessage (JStr (input st)) user;
                                  mkMessage (Conversation.bot_text r) bot] in
  blank (input st) = false -> isLoading st = false ->
  callGeminiAPI_literal script literalKey (instructions ++ input st)%string
    default_retries default_delay
    (mkWorld (calls w)
       (trace w ++ [SetState "messages" (JArr (map render shown));
                    SetState "input" (JStr "");
                    SetState "isLoading" (JBool true)]))
  = (r, w1) ->
  handleSend script literalKey st w
  = (mkChat answered "" false,
     mkWorld (calls w1)
       (trace w1
        ++ match r with
           | Fulfilled _ => []
           | Rejected e =>
               [ConsoleErrorExn "Failed to get response from AI:" e]
           end
        ++ [SetState "messages" (JArr (map render answered));
            SetState "isLoading" (JBool false)])).
Proof.
  cbv zeta. intros Hb Hl Hc.
  unfold handleSend, nothing_to_send. rewrite trim_empty, Hb, Hl. cbn [orb].
  unfold setMessages, setInput, setIsLoading, bind, emit, ret.
  cbv beta iota. cbn [messages input isLoading calls trace].
  rewrite <- !app_assoc. cbn [app]. rewrite Hc.
  destruct r as [v|e]; cbv beta iota;
    cbn [messages input isLoading calls trace Conversation.bot_text app];
    rewrite <- !app_assoc; reflexivity.
Qed.

(** What is blank and what is not. *)
Lemma blank_examples :
  blank "" = true /\ blank wide_blank = true
  /\ blank zero_width = false /\ blank question = false
  /\ trim (wide_blank ++ question ++ "  ") = question.
Proof. repeat split; reflexivity. Qed.

(** C10.  When the input is empty or white space only, or a request is in
    flight, [handleSend] changes nothing: the state is the one it was given
    and the world is untouched, so no request is made and no state written.
    Otherwise the handler first writes the list with the user message
    appended, the empty input and the loading flag, and only then calls the
    client, with its default arguments: in the trace the three writes come
    directly before the first request.  When the client rejects, the
    handler ends with the fixed apology appended as a bot message and the
    loading flag cleared, and when it returns a value, with that value
    appended as a bot message. *)
Theorem handleSend_guard_and_apology
    (script : nat -> fetched jsval) (literalKey : string)
    (st : chat) (w : world) :
  let userMessage := mkMessage (JStr (input st)) user in
  let prompt := (instructions ++ input st)%string in
  let client :=
    callGeminiAPI_literal script literalKey prompt
      default_retries default_delay in
  let writes :=
    [SetState "messages" (JArr (map render (messages st ++ [userMessage])));
     SetState "input" (JStr "");
     SetState "isLoading" (JBool true)] in
  let sending := mkWorld (calls w) (trace w ++ writes) in
  (blank (input st) = true \/ isLoading st = true ->
     handleSend script literalKey st w = (st, w))
  /\ (blank (input st) = false /\ isLoading st = false ->
      (exists rest,
         trace (snd (handleSend script literalKey st w))
         = trace w ++ writes
           ++ Fetch (literalUrl literalKey) (Some (payload_of prompt)) :: rest)
      /\ (forall e w1,
            client sending = (Rejected e, w1) ->
            let answered :=
              messages st ++ [userMessage; mkMessage (JStr apology) bot] in
            handleSend script literalKey st w
            = (mkChat answered "" false,
               mkWorld (calls w1)
                 (trace w1
                  ++ [ConsoleErrorExn "Failed to get response from AI:" e;
                      SetState "messages" (JArr (map render answered));
                      SetState "isLoading" (JBool false)])))
      /\ (forall v w1,
            client sending = (Fulfilled v, w1) ->
            let answered := messages st ++ [userMessage; mkMessage v bot] in
            handleSend script literalKey st w
            = (mkChat answered "" false,
               mkWorld (calls w1)
                 (trace w1
                  ++ [SetState "messages" (JArr (map render answered));
                      SetState "isLoading" (JBool false)])))).
Proof.
  cbv zeta. split.
  - intros H. unfold handleSend, nothing_to_send. rewrite trim_empty.
    destruct H as [-> | ->]; [|rewrite orb_true_r]; reflexivity.
  - intros [Hb Hl]. split; [|split].
    + destruct (callGeminiAPI_literal script literalKey
                  (instructions ++ input st)%string default_retries
                  default_delay
                  (mkWorld (calls w)
                     (trace w
                      ++ [SetState "messages"
                            (JArr (map render
                                     (messages st
                                      ++ [mkMessage (JStr (input st)) user])));
                          SetState "input" (JStr "");
                          SetState "isLoading" (JBool true)])))
        as [r w1] eqn:Hc.
      destruct (literal_first_request script literalKey
                  (instructions ++ input st)%string default_retries
                  default_delay
                  (mkWorld (calls w)
                     (trace w
                      ++ [SetState "messages"
                            (JArr (map render
                                     (messages st
                                      ++ [mkMessage (JStr (input st)) user])));
                          SetState "input" (JStr "");
                          SetState "isLoading" (JBool true)])))
        as [rest Hrest].
      rewrite Hc in Hrest. cbn [snd trace] in Hrest.
      rewrite (handleSend_settled script literalKey st w w1 r Hb Hl Hc).
      cbn [snd trace]. rewrite Hrest, <- !app_assoc. cbn [app].
      eexists. reflexivity.
    + intros e w1 Hc.
      exact (handleSend_settled script literalKey st w w1 (Rejected e) Hb Hl Hc).
    + intros v w1 Hc.
      exact (handleSend_settled script literalKey st w w1 (Fulfilled v) Hb Hl Hc).
Qed.

Lemma handleSend_guard_and_apology_witness :
  handleSend offline "key" idle w0 = (idle, w0)
  /\ handleSend offline "key" idle_wide w0 = (idle_wide, w0)
  /\ (exists rest,
        trace (snd (handleSend offline "key" asking w0))
        = [SetState "messages"
             (JArr (map render
                      (messages asking ++ [mkMessage (JStr question) user])));
           SetState "input" (JStr "");
           SetState "isLoading" (JBool true);
           Fetch (literalUrl "key")
                 (Some (payload_of (instructions ++ question)%string))]
          ++ rest)
  /\ exists w',
       fst (handleSend offline "key" asking w0)
       = mkChat (messages asking
                 ++ [mkMessage (JStr question) user;
                     mkMessage (JStr apology) bot]) "" false
       /\ snd (handleSend offline "key" asking w0) = w'
       /\ calls w' = 4.
Proof.
  split; [|split; [|split]].
  - apply (handleSend_guard_and_apology offline "key" idle w0).
    left. reflexivity.
  - apply (handleSend_guard_and_apology offline "key" idle_wide w0).
    left. reflexivity.
  - destruct (handleSend_guard_and_apology offline "key" asking w0)
      as [_ Hsend].
    destruct (Hsend (conj eq_refl eq_refl)) as ([rest Hrest] & _ & _).
    exists rest. exact Hrest.
  - destruct (handleSend_guard_and_apology offline "key" asking w0)
      as [_ Hsend].
    destruct (Hsend (conj eq_refl eq_refl)) as (_ & Hrej & _).
    eexists. rewrite (Hrej (mkExn "TypeError" "Failed to fetch") _ eq_refl).
    cbn [fst snd calls]. repeat split.
Defined.

(* ================================================================== *)
(** ** Further facts about the generative-answer client *)

(** An attempt that does not end in the [catch] block settles the call: one
    request, no wait, a truthy value. *)
Lemma call_attempt_settles
    (script : nat -> fetched jsval) (apiKey : option string)
    (prompt : string) (retries : nat) (delay : Z) (w : world) :
  key_configured apiKey = true ->
  attempt_failure (script (calls w)) = None ->
  exists v w',
    callGeminiAPI script apiKey prompt retries delay w = (Fulfilled v, w')
    /\ truthy v = true
    /\ calls w' = S (calls w)
    /\ sleeps (trace w') = sleeps (trace w)
    /\ fetches (trace w')
       = fetches (trace w) ++ [(apiUrl apiKey, Some (payload_of prompt))].
Proof.
  intros Hkey Hf. unfold attempt_failure in Hf.
  destruct (script (calls w)) as [e|r] eqn:Hs; [discriminate|].
  destruct (ok r) eqn:Hok; [|discriminate].
  destruct (json r) as [doc|e] eqn:Hj; [|discriminate].
  destruct (nullish doc) eqn:Hn; [discriminate|].
  destruct (call_document_fulfils script apiKey prompt retries delay w r doc
              Hkey Hs Hok Hj Hn) as (t & _ & ->).
  destruct (truthy t) eqn:Ht; eexists; eexists;
    (split; [reflexivity|]); (split; [assumption || reflexivity|]);
    repeat split; trace_eq.
Qed.

(** The shape of every call: some number [m] of attempts, all but the last
    failed, the waits between them the backoff sequence, the same request
    each time; a rejection only from the last attempt the retry count
    allows, a value only from an attempt that did not fail. *)
Lemma call_shape
    (script : nat -> fetched jsval) (apiKey : option string)
    (prompt : string) (retries : nat) :
  key_configured apiKey = true ->
  forall (delay : Z) (w : world),
  exists m r w',
    callGeminiAPI script apiKey prompt retries delay w = (r, w')
    /\ m <= retries
    /\ calls w' = calls w + S m
    /\ sleeps (trace w') = sleeps (trace w) ++ backoff delay m
    /\ fetches (trace w')
       = fetches (trace w)
         ++ repeat (apiUrl apiKey, Some (payload_of prompt)) (S m)
    /\ (forall i, i < m -> attempt_failure (script (calls w + i)) <> None)
    /\ match r with
       | Rejected e =>
           m = retries /\ attempt_failure (script (calls w + m)) = Some e
       | Fulfilled v =>
           attempt_failure (script (calls w + m)) = None /\ truthy v = true
       end.
Proof.
  intros Hkey. induction retries as [|retries IH]; intros delay w.
  - destruct (attempt_failure (script (calls w))) as [e|] eqn:E.
    + destruct (call_failed_last script apiKey Hkey prompt delay w e E)
        as (w1 & Hc & Hn & Hs & Hq).
      exists 0, (Rejected e), w1. rewrite Nat.add_0_r.
      cbn [backoff repeat]. rewrite app_nil_r.
      repeat split; try assumption; try lia.
    + destruct (call_attempt_settles script apiKey prompt 0 delay w Hkey E)
        as (v & w1 & Hc & Hv & Hn & Hs & Hq).
      exists 0, (Fulfilled v), w1. rewrite Nat.add_0_r.
      cbn [backoff repeat]. rewrite app_nil_r.
      repeat split; try assumption; try lia.
  - destruct (attempt_failure (script (calls w))) as [e|] eqn:E.
    + destruct (call_failed_retry script apiKey Hkey prompt retries delay w e E)
        as (w1 & Hc & Hn & Hs & Hq).
      destruct (IH (delay * 2)%Z w1) as (m & r & w' & Hc' & Hm & Hn' & Hs' & Hq' & Hf & Hr).
      exists (S m), r, w'. rewrite Hc, Hc', Hn', Hs', Hq', Hn, Hs, Hq.
      split; [reflexivity|]. split; [lia|]. split; [lia|].
      split; [cbn [backoff]; rewrite <- app_assoc; reflexivity|].
      split; [cbn [repeat]; rewrite <- app_assoc; reflexivity|].
      split.
      * intros i Hi. destruct i as [|i].
        -- rewrite Nat.add_0_r, E. discriminate.
        -- replace (calls w + S i) with (S (calls w) + i) by lia.
           rewrite <- Hn. apply Hf. lia.
      * rewrite Hn in Hr.
        replace (calls w + S m) with (S (calls w) + m) by lia.
        destruct r as [v|e']; [exact Hr|].
        destruct Hr as [-> Hr]. split; [reflexivity|exact Hr].
    + destruct (call_attempt_settles script apiKey prompt (S retries) delay w Hkey E)
        as (v & w1 & Hc & Hv & Hn & Hs & Hq).
      exists 0, (Fulfilled v), w1. rewrite Nat.add_0_r.
      cbn [backoff repeat]. rewrite app_nil_r.
      repeat split; try assumption; try lia.
Qed.

Import Waits MoreScenarios.

Lemma total_wait_app (t1 t2 : list event) :
  total_wait (t1 ++ t2) = (total_wait t1 + total_wait t2)%Z.
Proof.
  unfold total_wait. rewrite sleeps_app.
  induction (sleeps t1) as [|d l IH]; cbn [app fold_right]; lia.
Qed.

Lemma backoff_sum (k : nat) :
  forall d, fold_right Z.add 0%Z (backoff d k) = (d * (2 ^ Z.of_nat k - 1))%Z.
Proof.
  induction k as [|k IH]; intros d.
  - cbn. lia.
  - cbn [backoff fold_right]. rewrite IH.
    rewrite Nat2Z.inj_succ, Z.pow_succ_r by lia. lia.
Qed.

Lemma fold_add_app (l1 l2 : list Z) :
  fold_right Z.add 0%Z (l1 ++ l2)
  = (fold_right Z.add 0 l1 + fold_right Z.add 0 l2)%Z.
Proof. induction l1 as [|d l IH]; cbn [app fold_right]; lia. Qed.

(** X1.  Whatever the network answers, a call with a configured key makes
    at least one and at most [retries + 1] requests, every one of them the
    same POST of the same payload, and the waits between them are the first
    terms of [delay], [2 * delay], [4 * delay], ...: one wait fewer than
    requests. *)
Theorem callGeminiAPI_request_bound
    (script : nat -> fetched jsval) (apiKey : option string)
    (prompt : string) (retries : nat) (delay : Z) (w : world) :
  key_configured apiKey = true ->
  let w' := snd (callGeminiAPI script apiKey prompt retries delay w) in
  exists m,
    m <= retries
    /\ calls w' = calls w + m + 1
    /\ fetches (trace w')
       = fetches (trace w)
         ++ repeat (apiUrl apiKey, Some (payload_of prompt)) (m + 1)
    /\ sleeps (trace w')
       = sleeps (trace w) ++ map (fun i => (delay * 2 ^ Z.of_nat i)%Z) (seq 0 m).
Proof.
  intros Hkey. cbv zeta.
  destruct (call_shape script apiKey prompt retries Hkey delay w)
    as (m & r & w' & -> & Hm & Hn & Hs & Hq & _).
  exists m. cbn [snd]. replace (m + 1) with (S m) by lia.
  rewrite Hs, Hq, backoff_map.
  repeat split; (assumption || reflexivity || lia).
Qed.

Lemma callGeminiAPI_request_bound_witness :
  exists m,
    m <= 3
    /\ calls (snd (callGeminiAPI server_error_once (Some "key") question
                     3 1000 w0)) = m + 1.
Proof.
  destruct (callGeminiAPI_request_bound server_error_once (Some "key")
              question 3 1000 w0 eq_refl) as (m & Hm & Hc & _).
  exists m. split; [exact Hm|]. rewrite Hc. reflexivity.
Defined.

(** X2.  A call with a configured key rejects only after the retry count
    is used up: when it rejects, all [retries + 1] attempts have failed,
    exactly [retries + 1] requests were made, all [retries] waits were
    taken, and the exception is that of the last attempt. *)
Theorem callGeminiAPI_rejects_only_when_exhausted
    (script : nat -> fetched jsval) (apiKey : option string)
    (prompt : string) (retries : nat) (delay : Z) (w w' : world) (e : jsexn) :
  key_configured apiKey = true ->
  callGeminiAPI script apiKey prompt retries delay w = (Rejected e, w') ->
  (forall i, i < retries -> attempt_failure (script (calls w + i)) <> None)
  /\ attempt_failure (script (calls w + retries)) = Some e
  /\ calls w' = calls w + retries + 1
  /\ sleeps (trace w')
     = sleeps (trace w)
       ++ map (fun i => (delay * 2 ^ Z.of_nat i)%Z) (seq 0 retries).
Proof.
  intros Hkey Hcall.
  destruct (call_shape script apiKey prompt retries Hkey delay w)
    as (m & r & w1 & Hc & _ & Hn & Hs & _ & Hf & Hr).
  rewrite Hcall in Hc. injection Hc as <- <-.
  destruct Hr as [-> Hr]. rewrite <- backoff_map.
  repeat split; (assumption || lia).
Qed.

Lemma callGeminiAPI_rejects_only_when_exhausted_witness :
  attempt_failure (offline 3) = Some (mkExn "TypeError" "Failed to fetch")
  /\ calls (snd (callGeminiAPI offline (Some "key") question 3 1000 w0)) = 4.
Proof.
  destruct (callGeminiAPI_rejects_only_when_exhausted offline (Some "key")
              question 3 1000 w0
              (snd (callGeminiAPI offline (Some "key") question 3 1000 w0))
              (mkExn "TypeError" "Failed to fetch") eq_refl)
    as (_ & He & Hc & _).
  - vm_compute. reflexivity.
  - split; [exact He|exact Hc].
Defined.

(** X3.  Whether or not a key is configured, a value returned by the call
    is never empty: it is truthy (a non-empty string when it is a string),
    never [undefined], [null], [false], [0] or the empty string. *)
Theorem callGeminiAPI_value_is_truthy
    (script : nat -> fetched jsval) (apiKey : option string)
    (prompt : string) (retries : nat) (delay : Z) (w w' : world) (v : jsval) :
  callGeminiAPI script apiKey prompt retries delay w = (Fulfilled v, w') ->
  truthy v = true.
Proof.
  intros Hcall. destruct (key_configured apiKey) eqn:Hkey.
  - destruct (call_shape script apiKey prompt retries Hkey delay w)
      as (m & r & w1 & Hc & _ & _ & _ & _ & _ & Hr).
    rewrite Hcall in Hc. injection Hc as <- <-. apply Hr.
  - assert (H : callGeminiAPI script apiKey prompt retries delay w
                = (Fulfilled (JStr missing_key_msg),
                   mkWorld (calls w) (trace w ++ [ConsoleError missing_key_msg])))
      by (destruct retries; cbn [callGeminiAPI]; rewrite Hkey; reflexivity).
    rewrite H in Hcall. injection Hcall as <- _. reflexivity.
Qed.

Lemma callGeminiAPI_value_is_truthy_witness :
  fst (callGeminiAPI empty_text (Some "key") question 3 1000 w0)
  = Fulfilled (JStr fallback)
  /\ truthy (JStr fallback) = true.
Proof.
  assert (H : callGeminiAPI empty_text (Some "key") question 3 1000 w0
              = (Fulfilled (JStr fallback),
                 snd (callGeminiAPI empty_text (Some "key") question 3 1000 w0)))
    by (vm_compute; reflexivity).
  split.
  - rewrite H. reflexivity.
  - exact (callGeminiAPI_value_is_truthy empty_text (Some "key") question
             3 1000 w0 _ (JStr fallback) H).
Defined.

(** X4.  The call returns from the first attempt that does not fail: when
    the first [k] attempts fail in any way ([k] within the retry bound) and
    the next one does not, the call is fulfilled after exactly [k + 1]
    requests and [k] waits; later answers of the network are never asked
    for. *)
Theorem callGeminiAPI_stops_at_first_success
    (script : nat -> fetched jsval) (apiKey : option string)
    (prompt : string) (retries : nat) (delay : Z) (w : world) (k : nat) :
  key_configured apiKey = true ->
  k <= retries ->
  (forall i, i < k -> attempt_failure (script (calls w + i)) <> None) ->
  attempt_failure (script (calls w + k)) = None ->
  exists v w',
    callGeminiAPI script apiKey prompt retries delay w = (Fulfilled v, w')
    /\ calls w' = calls w + k + 1
    /\ sleeps (trace w')
       = sleeps (trace w) ++ map (fun i => (delay * 2 ^ Z.of_nat i)%Z) (seq 0 k).
Proof.
  intros Hkey Hk Hfail Hok.
  destruct (call_failures script apiKey Hkey prompt k retries delay w Hk Hfail)
    as (w1 & Hc & Hn & Hs & _).
  rewrite <- Hn in Hok.
  destruct (call_attempt_settles script apiKey prompt (retries - k)
              (delay * 2 ^ Z.of_nat k) w1 Hkey Hok)
    as (v & w2 & Hc2 & _ & Hn2 & Hs2 & _).
  exists v, w2. rewrite Hc, Hc2, Hn2, Hs2, Hs, Hn, backoff_map.
  repeat split; lia.
Qed.

Lemma callGeminiAPI_stops_at_first_success_witness :
  exists v w',
    callGeminiAPI server_error_once (Some "key") question 3 1000 w0
      = (Fulfilled v, w')
    /\ calls w' = 2
    /\ sleeps (trace w') = [1000%Z].
Proof.
  apply (callGeminiAPI_stops_at_first_success server_error_once (Some "key")
           question 3 1000 w0 1).
  - reflexivity.
  - lia.
  - intros i Hi. destruct i as [|i]; [discriminate|lia].
  - reflexivity.
Defined.

(** X5.  With a delay that is not negative, the time a call spends waiting
    is at most [delay * (2 ^ retries - 1)] milliseconds, and exactly that
    when the call rejects: 7000 ms with the default arguments. *)
Theorem callGeminiAPI_total_wait
    (script : nat -> fetched jsval) (apiKey : option string)
    (prompt : string) (retries : nat) (delay : Z) (w : world) :
  key_configured apiKey = true ->
  (0 <= delay)%Z ->
  let r := fst (callGeminiAPI script apiKey prompt retries delay w) in
  let w' := snd (callGeminiAPI script apiKey prompt retries delay w) in
  (total_wait (trace w') - total_wait (trace w)
   <= delay * (2 ^ Z.of_nat retries - 1))%Z
  /\ (forall e, r = Rejected e ->
        (total_wait (trace w') - total_wait (trace w)
         = delay * (2 ^ Z.of_nat retries - 1))%Z).
Proof.
  intros Hkey Hd. cbv zeta.
  destruct (call_shape script apiKey prompt retries Hkey delay w)
    as (m & r & w' & -> & Hm & _ & Hs & _ & _ & Hr).
  cbn [fst snd]. unfold total_wait. rewrite Hs, fold_add_app, backoff_sum.
  split.
  - assert (2 ^ Z.of_nat m <= 2 ^ Z.of_nat retries)%Z
      by (apply Z.pow_le_mono_r; lia).
    nia.
  - intros e ->. destruct Hr as [-> _]. lia.
Qed.

Lemma callGeminiAPI_total_wait_witness :
  total_wait (trace (snd (callGeminiAPI offline (Some "key") question
                            default_retries default_delay w0)))
  = 7000%Z.
Proof.
  destruct (callGeminiAPI_total_wait offline (Some "key") question
              default_retries default_delay w0 eq_refl) as [_ H].
  - unfold default_delay. lia.
  - rewrite <- (Z.sub_0_r (total_wait _)).
    apply (H (mkExn "TypeError" "Failed to fetch")). vm_compute. reflexivity.
Defined.

(** X6.  An OK response with any document other than [null] settles the
    call with this one request and without a failure.  The test
    [result.candidates && result.candidates[0]?.content?.parts?.[0]?.text]
    never throws on such a document; when its value is truthy that value is
    returned as it is, whatever its type, and otherwise the document is
    logged and the fallback string returned. *)
Theorem callGeminiAPI_document_settles
    (script : nat -> fetched jsval) (apiKey : option string)
    (prompt : string) (retries : nat) (delay : Z) (w : world)
    (r : response jsval) (doc : jsval) :
  key_configured apiKey = true ->
  script (calls w) = Response r -> ok r = true -> json r = Fulfilled doc ->
  nullish doc = false ->
  exists t,
    candidate_test doc = Fulfilled t
    /\ callGeminiAPI script apiKey prompt retries delay w
       = if truthy t
         then (Fulfilled t,
               mkWorld (S (calls w))
                 (trace w ++ [Fetch (apiUrl apiKey) (Some (payload_of prompt))]))
         else (Fulfilled (JStr fallback),
               mkWorld (S (calls w))
                 (trace w
                  ++ [Fetch (apiUrl apiKey) (Some (payload_of prompt));
                      ConsoleErrorVal "Unexpected API response structure:" doc])).
Proof.
  intros Hkey Hs Hok Hj Hn.
  exact (call_document_fulfils script apiKey prompt retries delay w r doc
           Hkey Hs Hok Hj Hn).
Qed.

Lemma callGeminiAPI_document_settles_witness :
  fst (callGeminiAPI number_text (Some "key") question 3 1000 w0)
  = Fulfilled (JNum 42).
Proof.
  destruct (callGeminiAPI_document_settles number_text (Some "key") question
              3 1000 w0 _ _ eq_refl eq_refl eq_refl eq_refl eq_refl)
    as (t & Ht & ->).
  injection Ht as <-. reflexivity.
Defined.

(** X7.  An OK response whose document has a falsy value at
    [candidates[0].content.parts[0].text] (the empty string, [0], [false]
    or [null]) yields the fallback string after this one request, the
    document being logged. *)
Theorem callGeminiAPI_falsy_text_fallback
    (script : nat -> fetched jsval) (apiKey : option string)
    (prompt : string) (retries : nat) (delay : Z) (w : world)
    (r : response jsval) (doc v : jsval) :
  key_configured apiKey = true ->
  script (calls w) = Response r -> ok r = true -> json r = Fulfilled doc ->
  at_path doc text_path = Some v ->
  truthy v = false ->
  callGeminiAPI script apiKey prompt retries delay w
  = (Fulfilled (JStr fallback),
     mkWorld (S (calls w))
       (trace w
        ++ [Fetch (apiUrl apiKey) (Some (payload_of prompt));
            ConsoleErrorVal "Unexpected API response structure:" doc])).
Proof.
  intros Hkey Hs Hok Hj Hp Hv.
  assert (Hn : nullish doc = false).
  { unfold text_path in Hp. apply at_path_step in Hp. apply Hp. }
  destruct (call_document_fulfils script apiKey prompt retries delay w r doc
              Hkey Hs Hok Hj Hn) as (t & Ht & ->).
  assert (Htv : t = v).
  { unfold text_path in Hp. apply at_path_step in Hp. destruct Hp as [_ Hp].
    unfold candidate_test, member in Ht. rewrite Hn in Ht.
    assert (Hc : truthy (get doc (Name "candidates")) = true).
    { cbn [at_path] in Hp.
      destruct (get doc (Name "candidates")); try discriminate. reflexivity. }
    rewrite Hc in Ht. apply at_path_step in Hp. destruct Hp as [Hn0 Hp].
    rewrite Hn0 in Ht. apply at_path_opt_chain in Hp. congruence. }
  subst t. rewrite Hv. reflexivity.
Qed.

Lemma callGeminiAPI_falsy_text_fallback_witness :
  fst (callGeminiAPI empty_text (Some "key") question 3 1000 w0)
  = Fulfilled (JStr fallback).
Proof.
  rewrite (callGeminiAPI_falsy_text_fallback empty_text (Some "key") question
             3 1000 w0 (mkResponse 200 (Fulfilled (answer ""))) (answer "")
             (JStr "") eq_refl eq_refl eq_refl eq_refl eq_refl eq_refl).
  reflexivity.
Defined.

Lemma literal_calls_grow
    (script : nat -> fetched jsval) (key prompt : string) (retries : nat) :
  forall (delay : Z) (w : world),
    calls w < calls (snd (callGeminiAPI_literal script key prompt retries delay w)).
Proof.
  induction retries as [|retries IH]; intros delay w;
    cbn [callGeminiAPI_literal];
    unfold bind, sleep, emit, ret, fetch;
    (destruct (script (calls w)) as [e|r];
     [| destruct (negb (ok r));
        [ destruct (status r =? 429)%Z
        | destruct (json r) as [doc|e];
          [ destruct (candidate_test doc) as [t|e];
            [ destruct (truthy t); [destruct (strict_chain doc text_path)|] |]
          |] ] ]);
    cbv beta iota; cbn [calls trace snd];
    try lia;
    match goal with
    | |- _ < calls (snd (callGeminiAPI_literal _ _ _ _ ?d ?w1)) =>
        pose proof (IH d w1) as H; cbn [calls] in H; lia
    end.
Qed.

(** X8.  The two variants of the client differ in the missing-key test
    only.  With a non-empty key the variant with the key written in the
    source is the same function as the variant with the key from the
    environment; with the empty key the first still sends a request (with
    no key in its URL), where the second returns the error string without
    one. *)
Theorem callGeminiAPI_variants
    (script : nat -> fetched jsval) (key prompt : string)
    (retries : nat) (delay : Z) (w : world) :
  (key <> "" ->
     callGeminiAPI_literal script key prompt retries delay w
     = callGeminiAPI script (Some key) prompt retries delay w)
  /\ (key = "" ->
      calls w < calls (snd (callGeminiAPI_literal script key prompt retries delay w))
      /\ calls (snd (callGeminiAPI script (Some key) prompt retries delay w))
         = calls w).
Proof.
  split.
  - intros Hne. apply callGeminiAPI_literal_eq, Hne.
  - intros ->. split; [apply literal_calls_grow|].
    destruct retries; reflexivity.
Qed.

Lemma callGeminiAPI_variants_witness :
  callGeminiAPI_literal answering "key" question 3 1000 w0
  = callGeminiAPI answering (Some "key") question 3 1000 w0
  /\ calls (snd (callGeminiAPI_literal answering "" question 3 1000 w0)) = 1
  /\ calls (snd (callGeminiAPI answering (Some "") question 3 1000 w0)) = 0.
Proof.
  split.
  - apply (callGeminiAPI_variants answering "key" question 3 1000 w0).
    discriminate.
  - destruct (callGeminiAPI_variants answering "" question 3 1000 w0)
      as [_ H].
    destruct (H eq_refl) as [_ H0]. split; [reflexivity|exact H0].
Defined.

(* ================================================================== *)
(** ** Further facts about the telemetry poller *)

Import PollHistory.

(** A poll that delivers no sample, in any component: the error state is
    set, nothing else. *)
Lemma fetchISSData_undelivered
    (script : nat -> fetched sample) (st : tracker) (w : world) (msg : string) :
  undelivered (script (calls w)) = Some msg ->
  exists e,
    exn_message e = msg
    /\ fetchISSData script st w
       = (setError (Some msg) st,
          mkWorld (S (calls w))
            (trace w ++ [Fetch API_URL_ISS None;
                         ConsoleErrorExn "Failed to fetch ISS data:" e])).
Proof.
  intros Hu. unfold undelivered in Hu.
  destruct (script (calls w)) as [e|r] eqn:Hs.
  - apply fetchISSData_failure. unfold poll_failure. rewrite Hs. exact Hu.
  - destruct (ok r) eqn:Hok.
    + destruct (json r) as [d|e] eqn:Hj; [discriminate|].
      injection Hu as <-. exists e. split; [reflexivity|].
      unfold fetchISSData, bind, fetch. rewrite Hs, Hok. cbn [negb].
      rewrite Hj. unfold on_error, bind, emit, ret. cbn [calls trace].
      rewrite <- app_assoc. reflexivity.
    + apply fetchISSData_failure. unfold poll_failure. rewrite Hs, Hok.
      exact Hu.
Qed.

Lemma delivered_or_not (o : fetched sample) :
  (exists d, delivered o = Some d /\ undelivered o = None)
  \/ (exists msg, delivered o = None /\ undelivered o = Some msg).
Proof.
  unfold delivered, undelivered. destruct o as [e|r]; [right; eauto|].
  destruct (ok r); [|right; eauto].
  destruct (json r); [left|right]; eauto.
Qed.

Lemma delivered_response (o : fetched sample) (d : sample) :
  delivered o = Some d ->
  exists r, o = Response r /\ ok r = true /\ json r = Fulfilled d.
Proof.
  unfold delivered. destruct o as [e|r]; [discriminate|].
  destruct (ok r) eqn:Hok; [|discriminate].
  destruct (json r) eqn:Hj; [|discriminate].
  intros [= <-]. eauto.
Qed.

Lemma poll_S (script : nat -> fetched sample) (n : nat) (st : tracker) (w : world) :
  poll script (S n) st w
  = poll script n (fst (fetchISSData script st w)) (snd (fetchISSData script st w)).
Proof.
  cbn [poll]. unfold bind. destruct (fetchISSData script st w). reflexivity.
Qed.

Lemma fetchISSData_effects
    (script : nat -> fetched sample) (st : tracker) (w : world) :
  let w' := snd (fetchISSData script st w) in
  calls w' = S (calls w)
  /\ fetches (trace w') = fetches (trace w) ++ [(API_URL_ISS, None)]
  /\ sleeps (trace w') = sleeps (trace w).
Proof.
  cbv zeta.
  destruct (delivered_or_not (script (calls w)))
    as [(d & Hd & _) | (msg & Hd & Hu)].
  - destruct (delivered_response _ _ Hd) as (r & Hs & Hok & Hj).
    unfold fetchISSData, bind, fetch. rewrite Hs, Hok. cbn [negb]. rewrite Hj.
    destruct st as [sd se [pos|] [lo|] [lg|]];
      unfold setError, setIssData, setIssMesh, setOrbitLine,
        setGroundTrackLine, on_error, bind, emit, ret;
      cbn [issData error issMeshRef orbitLineRef groundTrackLineRef
           snd calls trace];
      repeat split; trace_eq.
  - destruct (fetchISSData_undelivered script st w msg Hu) as (e & _ & ->).
    cbn [snd calls trace]. repeat split; trace_eq.
Qed.

(** X9.  Whatever the network answers and whatever the state of the
    component, [n] polls make exactly [n] requests, each a plain GET of the
    satellite endpoint, and never wait: a failed poll is not retried. *)
Theorem poll_one_request_per_tick
    (script : nat -> fetched sample) (n : nat) (st : tracker) (w : world) :
  let w' := snd (poll script n st w) in
  calls w' = calls w + n
  /\ fetches (trace w') = fetches (trace w) ++ repeat (API_URL_ISS, None) n
  /\ sleeps (trace w') = sleeps (trace w).
Proof.
  cbv zeta. revert st w. induction n as [|n IH]; intros st w.
  - cbn. rewrite app_nil_r. auto.
  - rewrite poll_S.
    destruct (fetchISSData_effects script st w) as (Hc & Hq & Hs).
    destruct (IH (fst (fetchISSData script st w))
                 (snd (fetchISSData script st w))) as (Hc' & Hq' & Hs').
    rewrite Hc', Hq', Hs', Hc, Hq, Hs. cbn [repeat].
    rewrite <- app_assoc. repeat split; (reflexivity || lia).
Qed.

(** X14.  An OK response whose body cannot be parsed is handled as a
    failed poll: the sample, the mesh and both trails stay as they were and
    the error state becomes the parser's message. *)
Theorem unparseable_poll_keeps_sample
    (script : nat -> fetched sample) (st : tracker) (w : world)
    (r : response sample) (e : jsexn) :
  script (calls w) = Response r -> ok r = true -> json r = Rejected e ->
  fetchISSData script st w
  = (setError (Some (exn_message e)) st,
     mkWorld (S (calls w))
       (trace w ++ [Fetch API_URL_ISS None;
                    ConsoleErrorExn "Failed to fetch ISS data:" e])).
Proof.
  intros Hs Hok Hj.
  unfold fetchISSData, bind, fetch. rewrite Hs, Hok. cbn [negb]. rewrite Hj.
  unfold on_error, bind, emit, ret. cbn [calls trace].
  rewrite <- app_assoc. reflexivity.
Qed.

Lemma unparseable_poll_keeps_sample_witness :
  let st' := fst (fetchISSData telemetry_garbled tracking w0) in
  issData st' = Some overhead
  /\ orbit_trail st' = orbit_trail tracking
  /\ error st' = Some "Unexpected token < in JSON at position 0".
Proof.
  cbv zeta.
  rewrite (unparseable_poll_keeps_sample telemetry_garbled tracking w0
             (mkResponse 200
                (Rejected (mkExn "SyntaxError"
                                 "Unexpected token < in JSON at position 0")))
             (mkExn "SyntaxError" "Unexpected token < in JSON at position 0")
             eq_refl eq_refl eq_refl).
  repeat split; reflexivity.
Defined.

(* ================================================================== *)
(** ** Further facts about the chatbot *)

Import Conversation.

(** The client of the chatbot, by the shape of the call of the variant with
    the key from the environment. *)
Lemma literal_shape
    (script : nat -> fetched jsval) (key prompt : string) (retries : nat)
    (delay : Z) (w : world) :
  key <> "" ->
  exists m r w',
    callGeminiAPI_literal script key prompt retries delay w = (r, w')
    /\ m <= retries
    /\ calls w' = calls w + S m
    /\ sleeps (trace w') = sleeps (trace w) ++ backoff delay m
    /\ fetches (trace w')
       = fetches (trace w)
         ++ repeat (literalUrl key, Some (payload_of prompt)) (S m)
    /\ (forall i, i < m -> attempt_failure (script (calls w + i)) <> None)
    /\ match r with
       | Rejected e =>
           m = retries /\ attempt_failure (script (calls w + m)) = Some e
       | Fulfilled v =>
           attempt_failure (script (calls w + m)) = None /\ truthy v = true
       end.
Proof.
  intros Hne. rewrite (callGeminiAPI_literal_eq script key prompt retries Hne).
  assert (Hkey : key_configured (Some key) = true).
  { cbn. destruct (String.eqb_spec key ""); [contradiction|reflexivity]. }
  exact (call_shape script (Some key) prompt retries Hkey delay w).
Qed.

(** What a send leaves, by the guard. *)
Lemma handleSend_result
    (script : nat -> fetched jsval) (literalKey : string)
    (st : chat) (w : world) :
  exists b,
    fst (handleSend script literalKey st w)
    = if nothing_to_send st then st
      else mkChat (messages st
                   ++ [mkMessage (JStr (input st)) user; mkMessage b bot])
                  "" false.
Proof.
  destruct (nothing_to_send st) eqn:E.
  - exists JNull. unfold handleSend. rewrite E. reflexivity.
  - unfold nothing_to_send in E. rewrite trim_empty in E.
    apply orb_false_iff in E. destruct E as [Hb Hl].
    destruct (callGeminiAPI_literal script literalKey
                (instructions ++ input st)%string default_retries
                default_delay
                (mkWorld (calls w)
                   (trace w
                    ++ [SetState "messages"
                          (JArr (map render
                                   (messages st
                                    ++ [mkMessage (JStr (input st)) user])));
                        SetState "input" (JStr "");
                        SetState "isLoading" (JBool true)])))
      as [r w1] eqn:Hc.
    rewrite (handleSend_settled script literalKey st w w1 r Hb Hl Hc).
    exists (bot_text r). reflexivity.
Qed.

(** X15.  A send either changes nothing (blank input or a request in
    flight) or ends with exactly two messages appended to the list, the
    user's text and then one bot message, the input cleared and the loading
    flag off; earlier messages are never changed or dropped, however the
    client settles. *)
Theorem handleSend_appends_one_exchange
    (script : nat -> fetched jsval) (literalKey : string)
    (st : chat) (w : world) :
  let st' := fst (handleSend script literalKey st w) in
  (blank (input st) = true \/ isLoading st = true -> st' = st)
  /\ (blank (input st) = false /\ isLoading st = false ->
      exists b,
        st' = mkChat (messages st
                      ++ [mkMessage (JStr (input st)) user; mkMessage b bot])
                     "" false).
Proof.
  cbv zeta. destruct (handleSend_result script literalKey st w) as [b H].
  rewrite H. unfold nothing_to_send. rewrite trim_empty. split.
  - intros [-> | ->]; [|rewrite orb_true_r]; reflexivity.
  - intros [-> ->]. cbn [orb]. exists b. reflexivity.
Qed.

Lemma handleSend_appends_one_exchange_witness :
  fst (handleSend answering "key" idle w0) = idle
  /\ exists b,
       fst (handleSend answering "key" asking w0)
       = mkChat (messages asking
                 ++ [mkMessage (JStr question) user; mkMessage b bot])
                "" false.
Proof.
  split.
  - apply (handleSend_appends_one_exchange answering "key" idle w0).
    left. reflexivity.
  - apply (handleSend_appends_one_exchange answering "key" asking w0).
    split; reflexivity.
Defined.

(** X16.  With the (non-empty) key of the source, a send that goes out
    makes at least one and at most four requests, each the POST of the
    fixed instructions followed by the user's input, and waits at most
    7000 ms; the bot message it appends is never empty. *)
Theorem handleSend_requests
    (script : nat -> fetched jsval) (literalKey : string)
    (st : chat) (w : world) :
  literalKey <> "" ->
  blank (input st) = false -> isLoading st = false ->
  let st' := fst (handleSend script literalKey st w) in
  let w' := snd (handleSend script literalKey st w) in
  exists m b,
    m <= 3
    /\ calls w' = calls w + m + 1
    /\ fetches (trace w')
       = fetches (trace w)
         ++ repeat (literalUrl literalKey,
                    Some (payload_of (instructions ++ input st)%string))
                   (m + 1)
    /\ (total_wait (trace w') - total_wait (trace w) <= 7000)%Z
    /\ messages st'
       = messages st ++ [mkMessage (JStr (input st)) user; mkMessage b bot]
    /\ truthy b = true.
Proof.
  intros Hne Hb Hl. cbv zeta.
  destruct (literal_shape script literalKey
              (instructions ++ input st)%string default_retries default_delay
              (mkWorld (calls w)
                 (trace w
                  ++ [SetState "messages"
                        (JArr (map render
                                 (messages st
                                  ++ [mkMessage (JStr (input st)) user])));
                      SetState "input" (JStr "");
                      SetState "isLoading" (JBool true)]))
              Hne)
    as (m & r & w1 & Hc & Hm & Hn & Hs & Hq & _ & Hr).
  cbn [calls trace] in Hn, Hs, Hq.
  rewrite sleeps_app in Hs. rewrite fetches_app in Hq.
  cbn [sleeps fetches] in Hs, Hq. rewrite app_nil_r in Hs, Hq.
  assert (Hw : (fold_right Z.add 0 (backoff default_delay m) <= 7000)%Z).
  { rewrite backoff_sum. unfold default_delay.
    assert (2 ^ Z.of_nat m <= 2 ^ Z.of_nat default_retries)%Z
      by (apply Z.pow_le_mono_r; lia).
    change (2 ^ Z.of_nat default_retries)%Z with 8%Z in H. lia. }
  rewrite (handleSend_settled script literalKey st w w1 r Hb Hl Hc).
  cbn [fst snd calls trace messages].
  exists m, (bot_text r). replace (m + 1) with (S m) by lia.
  unfold total_wait. rewrite !sleeps_app, !fetches_app, Hs, Hq.
  assert (Hquiet :
    sleeps match r with
           | Fulfilled _ => []
           | Rejected e => [ConsoleErrorExn "Failed to get response from AI:" e]
           end = []
    /\ fetches match r with
               | Fulfilled _ => []
               | Rejected e =>
                   [ConsoleErrorExn "Failed to get response from AI:" e]
               end = []).
  { destruct r; split; reflexivity. }
  destruct Hquiet as [-> ->]. cbn [sleeps fetches app].
  rewrite !app_nil_r, fold_add_app.
  split; [exact Hm|]. split; [lia|]. split; [reflexivity|].
  split; [lia|]. split; [reflexivity|].
  destruct r as [v|e]; [apply Hr | reflexivity].
Qed.

Lemma handleSend_requests_witness :
  exists m b,
    m <= 3
    /\ calls (snd (handleSend down_for_four "key" asking w0)) = m + 1
    /\ truthy b = true.
Proof.
  assert (Hkey : "key" <> "") by discriminate.
  destruct (handleSend_requests down_for_four "key" asking w0
              Hkey eq_refl eq_refl)
    as (m & b & Hm & Hc & _ & _ & _ & Hb).
  exists m, b. repeat split; assumption.
Defined.

(** X17.  With the (non-empty) key of the source, for a send that goes
    out: when the first [k <= 3] attempts fail and the next is answered
    with a non-empty text, the bot message is that text, after [k + 1]
    requests; when all four attempts fail, the bot message is the apology,
    after four requests and waits of 1000, 2000 and 4000 ms. *)
Theorem handleSend_outcome
    (script : nat -> fetched jsval) (literalKey : string)
    (st : chat) (w : world) :
  literalKey <> "" ->
  blank (input st) = false -> isLoading st = false ->
  let st' := fst (handleSend script literalKey st w) in
  let w' := snd (handleSend script literalKey st w) in
  let userMessage := mkMessage (JStr (input st)) user in
  (forall k r doc t,
     k <= 3 ->
     (forall i, i < k -> attempt_failure (script (calls w + i)) <> None) ->
     script (calls w + k) = Response r -> ok r = true ->
     json r = Fulfilled doc ->
     at_path doc text_path = Some (JStr t) -> t <> "" ->
     messages st' = messages st ++ [userMessage; mkMessage (JStr t) bot]
     /\ calls w' = calls w + k + 1)
  /\ ((forall i, i < 4 -> attempt_failure (script (calls w + i)) <> None) ->
      messages st' = messages st ++ [userMessage; mkMessage (JStr apology) bot]
      /\ calls w' = calls w + 4
      /\ sleeps (trace w') = sleeps (trace w) ++ [1000; 2000; 4000]%Z).
Proof.
  intros Hne Hb Hl. cbv zeta.
  assert (Hkey : key_configured (Some literalKey) = true).
  { cbn. destruct (String.eqb_spec literalKey ""); [contradiction|reflexivity]. }
  remember (mkWorld (calls w)
              (trace w
               ++ [SetState "messages"
                     (JArr (map render
                              (messages st
                               ++ [mkMessage (JStr (input st)) user])));
                   SetState "input" (JStr "");
                   SetState "isLoading" (JBool true)])) as sending eqn:Hw.
  assert (Hcalls : calls sending = calls w) by (subst sending; reflexivity).
  assert (Hsleeps : sleeps (trace sending) = sleeps (trace w)).
  { subst sending. cbn [trace]. rewrite sleeps_app. cbn [sleeps].
    apply app_nil_r. }
  split.
  - intros k r doc t Hk Hfail Hs Hok Hj Hp Ht.
    rewrite <- Hcalls in Hs.
    destruct (call_failures script (Some literalKey) Hkey
                (instructions ++ input st)%string k default_retries
                default_delay sending Hk) as (w1 & Hc & Hn & _).
    { intros i Hi. rewrite Hcalls. apply Hfail, Hi. }
    rewrite <- Hn in Hs.
    pose proof (call_success script (Some literalKey) Hkey
                  (instructions ++ input st)%string (default_retries - k)
                  (default_delay * 2 ^ Z.of_nat k) w1 r doc t Hs Hok Hj Hp Ht)
      as Hc2.
    rewrite <- Hc, <- (callGeminiAPI_literal_eq script literalKey _ _ Hne) in Hc2.
    rewrite Hw in Hc2.
    rewrite (handleSend_settled script literalKey st w _ _ Hb Hl Hc2).
    cbn [fst snd bot_text calls messages]. split; [reflexivity|lia].
  - intros Hfail.
    destruct (attempt_failure (script (calls w + 3))) as [e|] eqn:E;
      [|exfalso; apply (Hfail 3); [lia|exact E]].
    rewrite <- Hcalls in E.
    destruct (call_failures script (Some literalKey) Hkey
                (instructions ++ input st)%string 3 default_retries
                default_delay sending (Nat.le_refl _))
      as (w1 & Hc & Hn & Hs & _).
    { intros i Hi. rewrite Hcalls. apply Hfail. lia. }
    rewrite <- Hn in E.
    destruct (call_failed_last script (Some literalKey) Hkey
                (instructions ++ input st)%string
                (default_delay * 2 ^ Z.of_nat 3) w1 e E)
      as (w2 & Hc2 & Hn2 & Hs2 & _).
    change (default_retries - 3) with 0 in Hc. rewrite Hc2 in Hc.
    rewrite <- (callGeminiAPI_literal_eq script literalKey _ _ Hne) in Hc.
    rewrite Hw in Hc.
    rewrite (handleSend_settled script literalKey st w _ _ Hb Hl Hc).
    cbn [fst snd bot_text calls trace messages].
    rewrite !sleeps_app, Hs2, Hs, Hsleeps. cbn [sleeps app].
    rewrite !app_nil_r.
    repeat split; (reflexivity || lia).
Qed.

Lemma handleSend_outcome_witness :
  messages (fst (handleSend server_error_once "key" asking w0))
  = messages asking
    ++ [mkMessage (JStr question) user; mkMessage (JStr reply) bot]
  /\ messages (fst (handleSend offline "key" asking w0))
     = messages asking
       ++ [mkMessage (JStr question) user; mkMessage (JStr apology) bot].
Proof.
  assert (Hkey : "key" <> "") by discriminate.
  split.
  - destruct (handleSend_outcome server_error_once "key" asking w0
                Hkey eq_refl eq_refl) as [H _].
    apply (H 1 ok_reply (answer reply) reply); try reflexivity.
    + lia.
    + intros i Hi. destruct i as [|i]; [discriminate|lia].
    + discriminate.
  - destruct (handleSend_outcome offline "key" asking w0
                Hkey eq_refl eq_refl) as [_ H].
    apply H. intros i _. discriminate.
Defined.

(** What typing and sending leaves when no request is in flight. *)
Lemma type_and_send_result
    (script : nat -> fetched jsval) (literalKey : string)
    (s : string) (st : chat) (w : world) :
  isLoading st = false ->
  exists b,
    fst (type_and_send script literalKey s st w)
    = (if blank s then mkChat (messages st) s false
       else mkChat (messages st
                    ++ [mkMessage (JStr s) user; mkMessage b bot]) "" false).
Proof.
  intros Hl. unfold type_and_send, setInput, bind, emit, ret.
  cbv beta iota.
  destruct (handleSend_result script literalKey
              (mkChat (messages st) s (isLoading st))
              (mkWorld (calls w) (trace w ++ [SetState "input" (JStr s)])))
    as [b H].
  exists b. rewrite H. unfold nothing_to_send. cbn [input isLoading messages].
  rewrite trim_empty, Hl, orb_false_r. reflexivity.
Qed.

(** X18.  A conversation keeps its order: starting with no request in
    flight, after the user has typed and sent any inputs one after the
    other, the message list is the earlier list followed by one exchange
    for each input that was not blank, in the order sent: the user's text,
    then one bot message.  Blank inputs add nothing, and the loading flag
    is off at the end. *)
Theorem conversation_alternates
    (script : nat -> fetched jsval) (literalKey : string)
    (inputs : list string) (st : chat) (w : world) :
  isLoading st = false ->
  let st' := fst (converse script literalKey inputs st w) in
  exists replies,
    List.length replies = List.length (sent inputs)
    /\ messages st'
       = messages st ++ exchanges (combine (sent inputs) replies)
    /\ isLoading st' = false.
Proof.
  cbv zeta. revert st w. induction inputs as [|s inputs IH]; intros st w Hl.
  - exists []. cbn. rewrite app_nil_r. auto.
  - cbn [converse]. unfold bind.
    destruct (type_and_send_result script literalKey s st w Hl) as (b & Hstep).
    destruct (type_and_send script literalKey s st w) as [st1 w1].
    cbn [fst] in Hstep. unfold sent. cbn [filter]. fold (sent inputs).
    destruct (blank s); cbn [negb]; subst st1.
    + destruct (IH (mkChat (messages st) s false) w1 eq_refl)
        as (replies & Hlen & Hm & Hl').
      exists replies. auto.
    + destruct (IH (mkChat (messages st
                            ++ [mkMessage (JStr s) user; mkMessage b bot])
                           "" false) w1 eq_refl)
        as (replies & Hlen & Hm & Hl').
      exists (b :: replies). cbn [List.length combine exchanges flat_map fst snd].
      rewrite Hm. cbn [messages]. rewrite <- app_assoc.
      split; [lia|]. split; [reflexivity|exact Hl'].
Qed.

Lemma conversation_alternates_witness :
  exists replies,
    List.length replies = 2
    /\ messages (fst (converse answering "key"
                        [question; "  "; "And how fast?"] initial w0))
       = messages initial
         ++ exchanges (combine [question; "And how fast?"] replies).
Proof.
  destruct (conversation_alternates answering "key"
              [question; "  "; "And how fast?"] initial w0 eq_refl)
    as (replies & Hlen & Hm & _).
  exists replies. split; [exact Hlen|exact Hm].
Defined.

(* ================================================================== *)
(** ** Facts about the callers of the client *)

(** All attempts the retry count allows fail. *)
Lemma call_exhausted
    (script : nat -> fetched jsval) (apiKey : option string)
    (prompt : string) (retries : nat) (delay : Z) (w : world) :
  key_configured apiKey = true ->
  (forall i, i < S retries -> attempt_failure (script (calls w + i)) <> None) ->
  exists e w',
    callGeminiAPI script apiKey prompt retries delay w = (Rejected e, w')
    /\ calls w' = calls w + S retries
    /\ sleeps (trace w') = sleeps (trace w) ++ backoff delay retries.
Proof.
  intros Hkey Hfail.
  destruct (call_shape script apiKey prompt retries Hkey delay w)
    as (m & r & w' & Hc & Hm & Hn & Hs & _ & _ & Hr).
  destruct r as [v|e].
  - exfalso. apply (Hfail m); [lia|]. apply Hr.
  - destruct Hr as [-> _]. exists e, w'. auto.
Qed.

(** Failures within the retry bound, then a non-empty text. *)
Lemma call_text_after_failures
    (script : nat -> fetched jsval) (apiKey : option string)
    (prompt : string) (retries : nat) (delay : Z) (w : world)
    (k : nat) (r : response jsval) (doc : jsval) (t : string) :
  key_configured apiKey = true ->
  k <= retries ->
  (forall i, i < k -> attempt_failure (script (calls w + i)) <> None) ->
  script (calls w + k) = Response r -> ok r = true -> json r = Fulfilled doc ->
  at_path doc text_path = Some (JStr t) -> t <> "" ->
  exists w',
    callGeminiAPI script apiKey prompt retries delay w = (Fulfilled (JStr t), w')
    /\ calls w' = calls w + S k
    /\ sleeps (trace w') = sleeps (trace w) ++ backoff delay k.
Proof.
  intros Hkey Hk Hfail Hs Hok Hj Hp Ht.
  destruct (call_failures script apiKey Hkey prompt k retries delay w Hk Hfail)
    as (w1 & Hc & Hn & Hsl & _).
  rewrite <- Hn in Hs.
  rewrite Hc, (call_success script apiKey Hkey prompt _ _ w1 r doc t
                 Hs Hok Hj Hp Ht).
  eexists. split; [reflexivity|]. cbn [calls trace].
  rewrite sleeps_app, Hsl. cbn [sleeps]. rewrite app_nil_r. split; [lia|reflexivity].
Qed.

Lemma key_nonempty (key : string) :
  key <> "" -> key_configured (Some key) = true.
Proof.
  intros Hne. cbn. destruct (String.eqb_spec key ""); [contradiction|reflexivity].
Qed.

(** *** The history page *)

Import History.

(** X19.  A click on Learn More is never ignored and never fails: from any
    state of the page, also while an earlier request is in flight or after
    the modal was closed, it sends between one and four requests with the
    prompt built from the entry's event, and ends with the modal open on
    that entry, the loader off and details that are not empty. *)
Theorem handleLearnMore_result
    (script : nat -> fetched jsval) (literalKey : string)
    (it : item) (st : history) (w : world) :
  literalKey <> "" ->
  let st' := fst (handleLearnMore script literalKey it st w) in
  let w' := snd (handleLearnMore script literalKey it st w) in
  exists m d,
    m <= 3
    /\ calls w' = calls w + m + 1
    /\ fetches (trace w')
       = fetches (trace w)
         ++ repeat (literalUrl literalKey, Some (payload_of (learn_prompt it)))
                   (m + 1)
    /\ st' = mkHistory (Some (mkModal (year it) (event it) d)) false
    /\ shown st' = Details (year it) (event it) d
    /\ truthy d = true.
Proof.
  intros Hne. cbv zeta.
  destruct (literal_shape script literalKey (learn_prompt it) default_retries
              default_delay w Hne)
    as (m & r & w1 & Hc & Hm & Hn & _ & Hq & _ & Hr).
  unfold handleLearnMore, before_await, bind, ret. rewrite Hc.
  exists m, (details_of r). replace (m + 1) with (S m) by lia.
  cbn [fst snd]. rewrite Hq.
  destruct r as [v|e];
    unfold after_await, setModalContent, setIsLoadingModal, shown;
    cbn [modalContent isLoadingModal details_of modal_year modal_event details];
    repeat split; (assumption || lia || reflexivity || apply Hr).
Qed.

Lemma handleLearnMore_result_witness :
  exists m d,
    m <= 3
    /\ calls (snd (handleLearnMore down_for_four "key"
                     (mkItem 1998 "ISS construction begins.")
                     (mkHistory None true) w0)) = m + 1
    /\ truthy d = true.
Proof.
  assert (Hkey : "key" <> "") by discriminate.
  destruct (handleLearnMore_result down_for_four "key"
              (mkItem 1998 "ISS construction begins.")
              (mkHistory None true) w0 Hkey)
    as (m & d & Hm & Hc & _ & _ & _ & Hd).
  exists m, d. repeat split; assumption.
Defined.

(** X20.  The details shown follow the network: when the first [k <= 3]
    attempts fail and the next is answered with a non-empty text, the
    details are that text; when all four attempts fail, the details are the
    fixed failure text, after four requests and waits of 1000, 2000 and
    4000 ms. *)
Theorem handleLearnMore_outcome
    (script : nat -> fetched jsval) (literalKey : string)
    (it : item) (st : history) (w : world) :
  literalKey <> "" ->
  let st' := fst (handleLearnMore script literalKey it st w) in
  let w' := snd (handleLearnMore script literalKey it st w) in
  (forall k r doc t,
     k <= 3 ->
     (forall i, i < k -> attempt_failure (script (calls w + i)) <> None) ->
     script (calls w + k) = Response r -> ok r = true ->
     json r = Fulfilled doc ->
     at_path doc text_path = Some (JStr t) -> t <> "" ->
     shown st' = Details (year it) (event it) (JStr t)
     /\ calls w' = calls w + k + 1)
  /\ ((forall i, i < 4 -> attempt_failure (script (calls w + i)) <> None) ->
      shown st' = Details (year it) (event it) (JStr could_not_load)
      /\ calls w' = calls w + 4
      /\ sleeps (trace w') = sleeps (trace w) ++ [1000; 2000; 4000]%Z).
Proof.
  intros Hne. cbv zeta. pose proof (key_nonempty _ Hne) as Hkey.
  unfold handleLearnMore, before_await, bind, ret.
  rewrite (callGeminiAPI_literal_eq script literalKey _ _ Hne).
  split.
  - intros k r doc t Hk Hfail Hs Hok Hj Hp Ht.
    destruct (call_text_after_failures script (Some literalKey)
                (learn_prompt it) default_retries default_delay w k r doc t
                Hkey Hk Hfail Hs Hok Hj Hp Ht) as (w1 & -> & Hn & _).
    cbn [fst snd]. split; [reflexivity|lia].
  - intros Hfail.
    destruct (call_exhausted script (Some literalKey) (learn_prompt it)
                default_retries default_delay w Hkey Hfail)
      as (e & w1 & -> & Hn & Hs).
    cbn [fst snd]. rewrite Hs. unfold default_retries in Hn.
    repeat split; (reflexivity || lia).
Qed.

Lemma handleLearnMore_outcome_witness :
  shown (fst (handleLearnMore offline "key"
                (mkItem 1998 "ISS construction begins.")
                (mkHistory None false) w0))
  = Details 1998 "ISS construction begins." (JStr could_not_load).
Proof.
  assert (Hkey : "key" <> "") by discriminate.
  destruct (handleLearnMore_outcome offline "key"
              (mkItem 1998 "ISS construction begins.")
              (mkHistory None false) w0 Hkey) as [_ H].
  apply H. intros i _. discriminate.
Defined.

(** X21.  The answer that settles last wins, whatever was clicked last:
    when entry [b] is clicked while the request for entry [a] is in flight
    and the request for [a] settles first, the modal shows the details of
    [a] with the loader off although the request for [b] is still under
    way, and only the settling of [b] puts [b] back; and a modal closed
    while its request is in flight is opened again when the request
    settles. *)
Theorem modal_last_settled_wins
    (a b : item) (ra rb : settled jsval) (st : history) :
  let clicked_a := fst (before_await a st) in
  let clicked_b := fst (before_await b clicked_a) in
  shown clicked_b = Loader (year b) (event b)
  /\ shown (after_await a ra clicked_b)
     = Details (year a) (event a) (details_of ra)
  /\ shown (after_await b rb (after_await a ra clicked_b))
     = Details (year b) (event b) (details_of rb)
  /\ shown (closeModal clicked_a) = NoModal
  /\ shown (after_await a ra (closeModal clicked_a))
     = Details (year a) (event a) (details_of ra).
Proof.
  cbv zeta. destruct ra, rb; repeat split.
Qed.

(** *** The tracker's panel *)

(** X22.  [predictNextCity] does nothing while no sample has arrived: no
    state change, no request.  With a sample but no key configured it makes
    no request either, and what it shows as the next city is the
    missing-key message, the predicting flag off. *)
Theorem predictNextCity_without_sample_or_key
    (script : nat -> fetched jsval) (apiKey : option string)
    (toFixed : R -> nat -> string) (st : Panel.panel) (w : world) :
  (Panel.issData st = None ->
     Panel.predictNextCity script apiKey toFixed st w = (st, w))
  /\ (forall d,
        Panel.issData st = Some d -> key_configured apiKey = false ->
        Panel.predictNextCity script apiKey toFixed st w
        = (Panel.mkPanel (Some d) (JStr missing_key_msg) false
             (Panel.groundConditions st),
           mkWorld (calls w) (trace w ++ [ConsoleError missing_key_msg]))).
Proof.
  split.
  - intros H. unfold Panel.predictNextCity. rewrite H. reflexivity.
  - intros d H Hkey. unfold Panel.predictNextCity, Panel.ask, bind.
    rewrite H.
    assert (Hc : forall p r dl w0,
               callGeminiAPI script apiKey p r dl w0
               = (Fulfilled (JStr missing_key_msg),
                  mkWorld (calls w0) (trace w0 ++ [ConsoleError missing_key_msg])))
      by (intros p r dl w1; destruct r; cbn [callGeminiAPI]; rewrite Hkey;
          reflexivity).
    rewrite Hc. unfold ret, Panel.setIsPredicting, Panel.setNextCity.
    cbn [Panel.issData Panel.nextCity Panel.isPredicting Panel.groundConditions].
    rewrite H. reflexivity.
Qed.

Lemma predictNextCity_without_sample_or_key_witness :
  let waiting := Panel.mkPanel None JNull false (Panel.mkGround JNull JNull) in
  let seen :=
    Panel.mkPanel (Some overhead) JNull false (Panel.mkGround JNull JNull) in
  Panel.predictNextCity answering (Some "key") digits waiting w0 = (waiting, w0)
  /\ Panel.nextCity (fst (Panel.predictNextCity answering None digits seen w0))
     = JStr missing_key_msg.
Proof.
  cbv zeta. split.
  - apply (predictNextCity_without_sample_or_key answering (Some "key") digits).
    reflexivity.
  - destruct (predictNextCity_without_sample_or_key answering None digits
                (Panel.mkPanel (Some overhead) JNull false
                   (Panel.mkGround JNull JNull)) w0) as [_ H].
    rewrite (H overhead eq_refl eq_refl). reflexivity.
Defined.



(** X24.  With a sample and a configured key, [fetchGroundConditions] asks
    for the weather first and for the location after that, and a failure of
    the first does not keep it from the second: when the first four
    attempts fail and the fifth is answered with a non-empty text, the
    weather is "N/A" and the location that text; when all eight attempts
    fail, both are "N/A", after eight requests and 14000 ms of waits.
    Nothing else of the state changes. *)
Theorem fetchGroundConditions_outcome
    (script : nat -> fetched jsval) (apiKey : option string)
    (toFixed : R -> nat -> string) (st : Panel.panel) (w : world)
    (d : Tracker.sample) :
  key_configured apiKey = true ->
  (forall i, i < 4 -> attempt_failure (script (calls w + i)) <> None) ->
  let st' := fst (Panel.fetchGroundConditions script apiKey toFixed (Some d) st w) in
  let w' := snd (Panel.fetchGroundConditions script apiKey toFixed (Some d) st w) in
  (forall r doc t,
     script (calls w + 4) = Response r -> ok r = true ->
     json r = Fulfilled doc ->
     at_path doc text_path = Some (JStr t) -> t <> "" ->
     st' = Panel.setGroundConditions
             (Panel.mkGround (JStr Panel.not_available) (JStr t)) st
     /\ calls w' = calls w + 5)
  /\ ((forall i, i < 8 -> attempt_failure (script (calls w + i)) <> None) ->
      st' = Panel.setGroundConditions
              (Panel.mkGround (JStr Panel.not_available)
                              (JStr Panel.not_available)) st
      /\ calls w' = calls w + 8
      /\ (total_wait (trace w') - total_wait (trace w) = 14000)%Z).
Proof.
  intros Hkey Hfail4. cbv zeta.
  destruct (call_exhausted script apiKey (Panel.weather_prompt toFixed d)
              default_retries default_delay w Hkey Hfail4)
    as (e1 & w1 & Hc1 & Hn1 & Hs1).
  unfold Panel.fetchGroundConditions, Panel.ask, bind. rewrite Hc1.
  unfold emit, ret.
  set (w1' := mkWorld (calls w1)
                (trace w1 ++ [ConsoleErrorExn "Could not fetch weather:" e1])).
  assert (Hn1' : calls w1' = calls w + 4) by (cbn; unfold default_retries in Hn1; lia).
  assert (Hs1' : sleeps (trace w1') = sleeps (trace w) ++ [1000; 2000; 4000]%Z).
  { cbn [w1' trace]. rewrite sleeps_app, Hs1. cbn [sleeps]. apply app_nil_r. }
  split.
  - intros r doc t Hs Hok Hj Hp Ht.
    rewrite <- Hn1', <- (Nat.add_0_r (calls w1')) in Hs.
    destruct (call_text_after_failures script apiKey
                (Panel.location_prompt toFixed d) default_retries default_delay
                w1' 0 r doc t Hkey (Nat.le_0_l _)) as (w2 & Hc2 & Hn2 & _);
      try assumption.
    { intros i Hi. lia. }
    rewrite Hc2. cbn [fst snd]. split; [reflexivity|lia].
  - intros Hfail8.
    destruct (call_exhausted script apiKey (Panel.location_prompt toFixed d)
                default_retries default_delay w1' Hkey)
      as (e2 & w2 & Hc2 & Hn2 & Hs2).
    { intros i Hi. rewrite Hn1'. rewrite <- Nat.add_assoc. apply Hfail8.
      unfold default_retries in Hi. lia. }
    rewrite Hc2. cbn [fst snd calls trace].
    split; [reflexivity|]. split; [unfold default_retries in Hn2; lia|].
    unfold total_wait. rewrite sleeps_app, Hs2, Hs1'. cbn [sleeps].
    rewrite app_nil_r, !fold_add_app. cbn. lia.
Qed.

Lemma fetchGroundConditions_outcome_witness :
  let seen :=
    Panel.mkPanel (Some overhead) JNull false (Panel.mkGround JNull JNull) in
  Panel.groundConditions
    (fst (Panel.fetchGroundConditions down_for_four (Some "key") digits
            (Some overhead) seen w0))
  = Panel.mkGround (JStr Panel.not_available) (JStr reply)
  /\ Panel.groundConditions
       (fst (Panel.fetchGroundConditions offline (Some "key") digits
               (Some overhead) seen w0))
     = Panel.mkGround (JStr Panel.not_available) (JStr Panel.not_available).
Proof.
  cbv zeta. split.
  - destruct (fetchGroundConditions_outcome down_for_four (Some "key") digits
                (Panel.mkPanel (Some overhead) JNull false
                   (Panel.mkGround JNull JNull)) w0 overhead eq_refl)
      as [H _].
    { intros i Hi. destruct i as [|[|[|[|i]]]]; (discriminate || lia). }
    destruct (H ok_reply (answer reply) reply) as [-> _];
      try reflexivity. discriminate.
  - destruct (fetchGroundConditions_outcome offline (Some "key") digits
                (Panel.mkPanel (Some overhead) JNull false
                   (Panel.mkGround JNull JNull)) w0 overhead eq_refl)
      as [_ H].
    { intros i _. discriminate. }
    destruct H as [-> _]; [intros i _; discriminate|reflexivity].
Defined.

(** X25.  Without a sample [fetchGroundConditions] does nothing.  With a
    sample but no key configured it makes no request, and both the weather
    and the location it stores are the missing-key message. *)
Theorem fetchGroundConditions_without_sample_or_key
    (script : nat -> fetched jsval) (apiKey : option string)
    (toFixed : R -> nat -> string) (st : Panel.panel) (w : world) :
  Panel.fetchGroundConditions script apiKey toFixed None st w = (st, w)
  /\ (forall d,
        key_configured apiKey = false ->
        let st' := fst (Panel.fetchGroundConditions script apiKey toFixed
                          (Some d) st w) in
        let w' := snd (Panel.fetchGroundConditions script apiKey toFixed
                         (Some d) st w) in
        st' = Panel.setGroundConditions
                (Panel.mkGround (JStr missing_key_msg) (JStr missing_key_msg)) st
        /\ calls w' = calls w
        /\ fetches (trace w') = fetches (trace w)).
Proof.
  split; [reflexivity|].
  intros d Hkey. cbv zeta.
  assert (Hc : forall p r dl w0,
             callGeminiAPI script apiKey p r dl w0
             = (Fulfilled (JStr missing_key_msg),
                mkWorld (calls w0) (trace w0 ++ [ConsoleError missing_key_msg])))
    by (intros p r dl w1; destruct r; cbn [callGeminiAPI]; rewrite Hkey;
        reflexivity).
  unfold Panel.fetchGroundConditions, Panel.ask, bind, ret.
  rewrite Hc. cbv beta iota. rewrite Hc.
  cbn [fst snd calls trace]. rewrite !fetches_app. cbn [fetches].
  rewrite !app_nil_r. auto.
Qed.

Lemma fetchGroundConditions_without_sample_or_key_witness :
  let seen :=
    Panel.mkPanel (Some overhead) JNull false (Panel.mkGround JNull JNull) in
  Panel.groundConditions
    (fst (Panel.fetchGroundConditions answering None digits (Some overhead)
            seen w0))
  = Panel.mkGround (JStr missing_key_msg) (JStr missing_key_msg).
Proof.
  cbv zeta.
  destruct (fetchGroundConditions_without_sample_or_key answering None digits
              (Panel.mkPanel (Some overhead) JNull false
                 (Panel.mkGround JNull JNull)) w0) as [_ H].
  destruct (H overhead eq_refl) as [-> _]. reflexivity.
Defined.

(** *** Navigation *)




(** *** The poller without ground track *)

(** X27.  The poller of the tracker without ground track is the poller with
    both trails run with no ground-track line: on every state and every
    answer of the network the two leave the same sample, error, mesh
    position and orbit trail and have the same effects; what holds of the
    orbit trail of the one holds of the other. *)
Theorem orbit_only_poller_agrees
    (script : nat -> fetched sample) (st : tracker) (w : world) :
  OrbitOnly.fetchISSData script st w
  = (let (st', w') := fetchISSData script (setGroundTrackLine None st) w in
     (setGroundTrackLine (groundTrackLineRef st) st', w')).
Proof.
  unfold OrbitOnly.fetchISSData, fetchISSData, bind, fetch.
  destruct st as [sd se m o g].
  unfold setGroundTrackLine at 1.
  cbn [issData error issMeshRef orbitLineRef groundTrackLineRef calls trace].
  destruct (script (calls w)) as [e|r].
  - reflexivity.
  - destruct (negb (ok r)); [reflexivity|].
    destruct (json r) as [data|e]; [|reflexivity].
    destruct m as [pos|]; destruct o as [lo|]; reflexivity.
Qed.

(** X28.  With no retry left the call gives up on the first failure, a 429
    included: an answer with a status outside 200-299 makes it reject, after
    this one request and without a wait, with the error whose message is
    "API responded with status: " followed by the status in decimal. *)
Theorem callGeminiAPI_no_retry_left
    (script : nat -> fetched jsval) (apiKey : option string)
    (prompt : string) (delay : Z) (w : world) (r : response jsval) :
  key_configured apiKey = true ->
  script (calls w) = Response r -> ok r = false ->
  callGeminiAPI script apiKey prompt 0 delay w
  = (Rejected (Error ("API responded with status: " ++ show_Z (status r))),
     mkWorld (S (calls w))
       (trace w
        ++ [Fetch (apiUrl apiKey) (Some (payload_of prompt));
            ConsoleErrorExn "Error calling Gemini API:"
              (Error ("API responded with status: " ++ show_Z (status r)))])).
Proof.
  intros Hkey Hs Hok.
  cbn [callGeminiAPI]. rewrite Hkey. cbn [negb].
  unfold bind at 1. unfold fetch at 1. rewrite Hs, Hok. cbn [negb].
  destruct (status r =? 429)%Z; unfold bind, emit, ret, status_error;
    cbn [calls trace]; rewrite <- app_assoc; reflexivity.
Qed.

Lemma callGeminiAPI_no_retry_left_witness :
  fst (callGeminiAPI rate_limited_twice (Some "key") question 0 1000 w0)
  = Rejected (mkExn "Error" "API responded with status: 429").
Proof.
  rewrite (callGeminiAPI_no_retry_left rate_limited_twice (Some "key") question
             1000 w0 too_many_requests eq_refl eq_refl eq_refl).
  reflexivity.
Defined.

(* ================================================================== *)
(** ** Facts about binary64 arithmetic *)










(* ================================================================== *)
(** ** Facts about the telemetry poller in binary64 *)

Import Telemetry TelemetryHistory.





Lemma last_cons {A : Type} (a : A) (l : list A) (d : A) :
  last (a :: l) d = last l a.
Proof.
  revert a d. induction l as [|b l IH]; intros a d; [reflexivity|].
  change (last (a :: b :: l) d) with (last (b :: l) d).
  rewrite (IH b d), (IH b a). reflexivity.
Qed.

Lemma last_map {A B : Type} (f : A -> B) (l : list A) (d : A) :
  last (map f l) (f d) = f (last l d).
Proof.
  revert d. induction l as [|a l IH]; intros d; [reflexivity|].
  cbn [map]. rewrite !last_cons. apply IH.
Qed.

Section TelemetryFacts.

Variable P : platform.



Variable script : nat -> fetched jsval.

(** One poll of a component whose refs are set, by what it delivers. *)
Lemma fetchISSData64_step (st : tracker) (w : world) :
  scene_ready st ->
  let st' := fst (fetchISSData P script st w) in
  let o := script (calls w) in
  scene_ready st'
  /\ issData st' = match parsed o with Some d => d | None => issData st end
  /\ error st' = poll_error P o
  /\ match placed P o with
     | Some g =>
         issMeshRef st' = Some (iss_point P g)
         /\ orbit_trail st'
            = map (Math_fround P) (push_point (orbit_trail st) (iss_point P g))
         /\ ground_trail st'
            = map (Math_fround P)
                  (push_point (ground_trail st) (ground_point P g))
     | None =>
         issMeshRef st' = issMeshRef st
         /\ orbit_trail st' = orbit_trail st
         /\ ground_trail st' = ground_trail st
     end
  /\ calls (snd (fetchISSData P script st w)) = S (calls w).
Proof.
  intros (Hm & Ho & Hg). cbv zeta.
  destruct st as [d e [pos|] [lo|] [lg|]];
    cbn [issMeshRef orbitLineRef groundTrackLineRef] in Hm, Ho, Hg;
    try contradiction.
  unfold fetchISSData, bind, fetch, placed, parsed, poll_error.
  destruct (script (calls w)) as [err|r];
    [| destruct (ok r);
       [ destruct (json r) as [data|err];
         [ cbn [negb]; cbv beta iota zeta;
           destruct (geometry_of P data) as [g|err] |]
       |] ];
    cbn; repeat split; discriminate.
Qed.

Lemma poll64_S (n : nat) (st : tracker) (w : world) :
  poll P script (S n) st w
  = poll P script n (fst (fetchISSData P script st w))
                    (snd (fetchISSData P script st w)).
Proof.
  cbn [poll]. unfold bind. destruct (fetchISSData P script st w). reflexivity.
Qed.

(** The state after [n] polls of a component whose refs are set, in terms
    of the documents delivered. *)
Lemma poll64_history (n : nat) :
  forall (st : tracker) (w : world),
    scene_ready st ->
    let st' := fst (poll P script n st w) in
    let gs := collect (placed P) script (calls w) n in
    scene_ready st'
    /\ issData st' = last (collect parsed script (calls w) n) (issData st)
    /\ issMeshRef st'
       = last (map (fun g => Some (iss_point P g)) gs) (issMeshRef st)
    /\ orbit_trail st'
       = fold_left (fun t p => map (Math_fround P) (push_point t p))
                   (map (iss_point P) gs) (orbit_trail st)
    /\ ground_trail st'
       = fold_left (fun t p => map (Math_fround P) (push_point t p))
                   (map (ground_point P) gs) (ground_trail st).
Proof.
  induction n as [|n IH]; intros st w Hready; cbv zeta.
  - cbn. auto.
  - rewrite poll64_S.
    destruct (fetchISSData64_step st w Hready)
      as (Hready1 & Sd & _ & Sp & Hcalls).
    destruct (IH _ (snd (fetchISSData P script st w)) Hready1)
      as (Hr & Hd & Hm & Ho & Hg).
    rewrite Hcalls in *. cbn [collect]. unfold placed in *.
    destruct (parsed (script (calls w))) as [d|].
    + destruct (geometry_of P d) as [g|e].
      * destruct Sp as (Sm & So & Sg).
        cbn [map fold_left]. rewrite !last_cons.
        rewrite Hd, Hm, Ho, Hg, Sd, Sm, So, Sg. auto.
      * destruct Sp as (Sm & So & Sg).
        rewrite !last_cons.
        rewrite Hd, Hm, Ho, Hg, Sd, Sm, So, Sg. auto.
    + destruct Sp as (Sm & So & Sg).
      rewrite Hd, Hm, Ho, Hg, Sd, Sm, So, Sg. auto.
Qed.

(** The mesh is where the sample shown puts it, whenever that sample has a
    geometry. *)
Lemma last_placed (n : nat) :
  forall (start : nat) (d0 : jsval) (m0 : option Vector3),
    (forall g, geometry_of P d0 = Fulfilled g -> m0 = Some (iss_point P g)) ->
    forall g,
      geometry_of P (last (collect parsed script start n) d0) = Fulfilled g ->
      last (map (fun g => Some (iss_point P g))
                (collect (placed P) script start n)) m0
      = Some (iss_point P g).
Proof.
  induction n as [|n IH]; intros start d0 m0 H0 g Hg.
  - cbn in *. apply H0, Hg.
  - cbn [collect] in *. unfold placed in *.
    destruct (parsed (script start)) as [d|].
    + rewrite last_cons in Hg.
      destruct (geometry_of P d) as [g'|e] eqn:Hd.
      * cbn [map]. rewrite last_cons.
        apply (IH (S start) d (Some (iss_point P g'))); [|exact Hg].
        intros g1 Hg1. rewrite Hd in Hg1. injection Hg1 as <-. reflexivity.
      * apply (IH (S start) d m0); [|exact Hg].
        intros g1 Hg1. rewrite Hd in Hg1. discriminate.
    + apply (IH (S start) d0 m0 H0 g Hg).
Qed.

End TelemetryFacts.

(** *** The trails *)

Lemma conversions_length (f : float -> float) (ps : list Vector3) :
  List.length (conversions f ps) = 3 * List.length ps.
Proof.
  induction ps as [|p ps IH]; [reflexivity|].
  cbn [conversions coords map List.length app]. rewrite IH. lia.
Qed.

Lemma conversions_snoc (f : float -> float) (ps : list Vector3) (p : Vector3) :
  conversions f (ps ++ [p]) = map f (conversions f ps ++ coords p).
Proof.
  induction ps as [|q ps IH]; [reflexivity|].
  cbn [app conversions]. rewrite IH, length_app. cbn [List.length].
  rewrite Nat.add_1_r, !map_app. cbn [coords map Nat.iter nat_rect].
  reflexivity.
Qed.

Lemma push_point64_cases (points : list float) (p : Vector3) (m : nat) :
  List.length points = 3 * m -> m <= 1000 ->
  (m < 1000 -> push_point points p = points ++ coords p)
  /\ (m = 1000 -> push_point points p = skipn 3 points ++ coords p).
Proof.
  intros Hlen Hm. unfold push_point, coords.
  assert (Hl : List.length (points ++ [x p; y p; z p]) = 3 * m + 3).
  { rewrite length_app, Hlen. reflexivity. }
  destruct (Nat.ltb_spec 3000 (List.length (points ++ [x p; y p; z p])))
    as [Hgt|Hle].
  - assert (m = 1000) by lia. subst m. split; [lia|].
    intros _. rewrite skipn_app.
    replace (3 - List.length points) with 0 by lia. reflexivity.
  - assert (m < 1000) by lia. split; [reflexivity|lia].
Qed.

(** After any sequence of appends to an empty trail, the trail holds the
    newest 1000 points of the sequence (all of them when there are fewer),
    in the order of their arrival, each converted once per append it has
    seen. *)
Lemma appends_keep_newest (f : float -> float) (ps : list Vector3) :
  fold_left (fun t p => map f (push_point t p)) ps []
  = skipn (3 * (List.length ps - 1000)) (conversions f ps).
Proof.
  induction ps as [|p ps IH] using rev_ind; [reflexivity|].
  rewrite fold_left_app. cbn [fold_left]. rewrite IH.
  rewrite conversions_snoc, length_app. cbn [List.length].
  pose proof (conversions_length f ps) as HF.
  set (C := conversions f ps) in *. set (n := List.length ps) in *.
  assert (Hlen : List.length (skipn (3 * (n - 1000)) C) = 3 * Nat.min n 1000).
  { rewrite length_skipn, HF. lia. }
  destruct (push_point64_cases _ p _ Hlen (Nat.le_min_r _ _)) as (Hlt & Heq).
  destruct (Nat.lt_ge_cases n 1000) as [Hn|Hn].
  - rewrite Hlt by lia.
    replace (n - 1000) with 0 by lia. replace (n + 1 - 1000) with 0 by lia.
    reflexivity.
  - rewrite Heq by lia. rewrite skipn_skipn.
    replace (3 + 3 * (n - 1000)) with (3 * (n + 1 - 1000)) by lia.
    rewrite skipn_map. f_equal. rewrite skipn_app.
    replace (3 * (n + 1 - 1000) - List.length C) with 0 by lia.
    reflexivity.
Qed.

Lemma mounted64_ready : scene_ready mounted.
Proof. repeat split; discriminate. Qed.

Lemma collect_snoc {A : Type} (f : fetched jsval -> option A)
    (script : nat -> fetched jsval) (n : nat) :
  forall start,
    collect f script start (S n)
    = collect f script start n
      ++ match f (script (start + n)) with
         | Some a => [a]
         | None => []
         end.
Proof.
  induction n as [|n IH]; intros start.
  - cbn [collect]. rewrite Nat.add_0_r.
    destruct (f (script start)); reflexivity.
  - change (collect f script start (S (S n)))
      with (match f (script start) with
            | Some a => a :: collect f script (S start) (S n)
            | None => collect f script (S start) (S n)
            end).
    rewrite (IH (S start)). cbn [collect].
    replace (S start + n) with (start + S n) by lia.
    destruct (f (script start)); reflexivity.
Qed.

(** *** The claim about the reference points *)




(** *** Further facts *)

(** X10.  After any run of polls of a component whose refs are set, the
    sample shown is the document of the most recent poll that got an OK
    response with a body that parsed, whatever JSON value it is (the
    earlier sample when there was none), and the error state is that of the
    last poll alone: cleared when its document had a geometry, the message
    of its failure otherwise.  In particular a last poll answered with the
    document [null] leaves [null] as the sample, next to the message of the
    failed destructuring. *)
Theorem poll_shows_latest_sample
    (P : platform) (script : nat -> fetched jsval) (n : nat)
    (st : tracker) (w : world) :
  scene_ready st ->
  let st' := fst (poll P script (S n) st w) in
  issData st' = last (collect parsed script (calls w) (S n)) (issData st)
  /\ error st' = poll_error P (script (calls w + n))
  /\ (parsed (script (calls w + n)) = Some JNull ->
      issData st' = JNull
      /\ error st'
         = Some "Cannot destructure property 'latitude' of 'data' as it is null.").
Proof.
  intros Hready. cbv zeta.
  assert (Hd : issData (fst (poll P script (S n) st w))
               = last (collect parsed script (calls w) (S n)) (issData st)).
  { apply (poll64_history P script (S n) st w Hready). }
  assert (He : error (fst (poll P script (S n) st w))
               = poll_error P (script (calls w + n))).
  { clear Hd. revert st w Hready.
    induction n as [|n IH]; intros st w Hready.
    - rewrite poll64_S. cbn [poll ret fst]. rewrite Nat.add_0_r.
      apply (fetchISSData64_step P script st w Hready).
    - rewrite poll64_S.
      destruct (fetchISSData64_step P script st w Hready)
        as (Hready1 & _ & _ & _ & Hcalls).
      rewrite (IH _ (snd (fetchISSData P script st w)) Hready1), Hcalls.
      f_equal. f_equal. lia. }
  split; [exact Hd|]. split; [exact He|].
  intros Hnull. rewrite Hd, He, collect_snoc, Hnull, last_last.
  split; [reflexivity|].
  unfold parsed in Hnull. unfold poll_error.
  destruct (script (calls w + n)) as [e|r]; [discriminate|].
  destruct (ok r); [|discriminate].
  destruct (json r) as [d|e]; [|discriminate].
  injection Hnull as ->. reflexivity.
Qed.

Lemma poll_shows_latest_sample_witness :
  let st' := fst (poll Engine.numbers_only Engine.sample_then_null 2
                    mounted w0) in
  issData st' = JNull
  /\ error st'
     = Some "Cannot destructure property 'latitude' of 'data' as it is null."
  /\ issMeshRef st'
     = issMeshRef (fst (poll Engine.numbers_only Engine.sample_then_null 1
                          mounted w0)).
Proof.
  cbv zeta.
  destruct (poll_shows_latest_sample Engine.numbers_only
              Engine.sample_then_null 1 mounted w0 mounted64_ready)
    as (_ & _ & Hnull).
  destruct (Hnull eq_refl) as [Hd He].
  split; [exact Hd|]. split; [exact He|]. vm_compute. reflexivity.
Defined.

(** X11.  From mounting on, after any run of polls the ISS mesh stands at
    the point of the most recent document that had a geometry (at the
    origin, with both trails empty, while there was none).  Whenever the
    sample shown has a geometry, the mesh stands at the point computed from
    that sample; a sample without one, such as [null], is shown all the
    same, while the mesh stays where an earlier document put it. *)
Theorem mesh_follows_sample
    (P : platform) (script : nat -> fetched jsval) (n : nat) (w : world) :
  let st := fst (poll P script n mounted w) in
  let gs := collect (placed P) script (calls w) n in
  issMeshRef st = Some (last (map (iss_point P) gs) (mkVector3 0 0 0))
  /\ (forall g,
        geometry_of P (issData st) = Fulfilled g ->
        issMeshRef st = Some (iss_point P g))
  /\ (gs = [] -> orbit_trail st = [] /\ ground_trail st = []).
Proof.
  cbv zeta.
  destruct (poll64_history P script n mounted w mounted64_ready)
    as (_ & Hd & Hm & Ho & Hg).
  split; [|split].
  - rewrite Hm. cbn [issMeshRef mounted].
    rewrite <- (last_map (@Some Vector3)), map_map. reflexivity.
  - intros g Hgeo. rewrite Hm. rewrite Hd in Hgeo.
    apply (last_placed P script n (calls w) (issData mounted)); [|exact Hgeo].
    intros g0 H0. discriminate.
  - intros E. rewrite Ho, Hg, E. split; reflexivity.
Qed.

Lemma mesh_follows_sample_witness :
  let st := fst (poll Engine.numbers_only Engine.over_equator 3 mounted w0) in
  issMeshRef st
  = Some (mkVector3 2.6524915470278204e-16 1.3262457735139102e-16
                    (-2.1659237168419403)).
Proof.
  cbv zeta.
  destruct (mesh_follows_sample Engine.numbers_only Engine.over_equator 3 w0)
    as (_ & Hshown & _).
  apply (Hshown (mkGeometry (Math_PI / 2) Math_PI 2.1659237168419403)).
  vm_compute. reflexivity.
Defined.

(** X12.  From mounting on, after any run of polls each trail holds the
    points of the newest 1000 documents that had a geometry (of all of them
    when there are fewer), oldest first, and no trace of the other polls.
    The coordinates are not the numbers computed: each append stores the
    whole array as Float32 again, so a point that has seen [k] appends, its
    own included, holds its coordinates converted [k] times. *)
Theorem trails_hold_newest_positions
    (P : platform) (script : nat -> fetched jsval) (n : nat) (w : world) :
  let st := fst (poll P script n mounted w) in
  let gs := collect (placed P) script (calls w) n in
  orbit_trail st
  = skipn (3 * (List.length gs - 1000))
          (conversions (Math_fround P) (map (iss_point P) gs))
  /\ ground_trail st
     = skipn (3 * (List.length gs - 1000))
             (conversions (Math_fround P) (map (ground_point P) gs)).
Proof.
  cbv zeta.
  destruct (poll64_history P script n mounted w mounted64_ready)
    as (_ & _ & _ & Ho & Hg).
  rewrite Ho, Hg. cbn [orbit_trail ground_trail mounted trail orbitLineRef
                       groundTrackLineRef points_of position].
  rewrite !appends_keep_newest, !length_map. split; reflexivity.
Qed.

Lemma trails_hold_newest_positions_witness :
  let st := fst (poll Engine.numbers_only Engine.sample_then_null 3
                   mounted w0) in
  orbit_trail st
  = [2.652491615260722e-16%float; 1.326245807630361e-16%float;
     (-2.1659238338470459)%float]
  /\ ground_trail st
     = [2.4615399487030608e-16%float; 1.2307699743515304e-16%float;
        (-2.0099999904632568)%float].
Proof.
  cbv zeta.
  destruct (trails_hold_newest_positions Engine.numbers_only
              Engine.sample_then_null 3 w0) as [Ho Hg].
  rewrite Ho, Hg. split; vm_compute; reflexivity.
Defined.

